(** * User-data exercises: credential store and session lifecycle

    A shallow embedding of the authentication code of the repository:
    - [user.py]  (the [User] row),
    - [db.py]    (the [DB] class over a SQLAlchemy session),
    - [0x03-user_authentication_service/auth.py] (the [Auth] class),
    - [0x03-user_authentication_service/app.py]  (the reset-password route),
    - [0x02-Session_authentication/api/v1/auth/session_auth.py]
      (the [SessionAuth] class and its class-level dictionary).

    Python methods become functions in a state-and-exception monad: a call
    takes the current state and gives back either a value or a raised
    exception, together with the state it left behind. *)

From Stdlib Require Import ZArith List Ascii String Bool Lia.
From stdpp Require Import base option list strings pretty gmap.

Local Open Scope string_scope.
Local Open Scope Z_scope.

(** ** Python values, truthiness, exceptions *)

Module Py.

(** The Python values that reach the store: [None], an [int], a [str]. *)
Inductive value : Type :=
| VNone
| VInt (z : Z)
| VStr (s : string).

#[export] Instance value_eq_dec : EqDecision value.
Proof. solve_decision. Defined.

Definition value_eqb (a b : value) : bool := bool_decide (a = b).

(** [bool(v)]: what [if v] and [not v] look at. *)
Definition truthy (v : value) : bool :=
  match v with
  | VNone => false
  | VInt z => negb (z =? 0)
  | VStr s => negb (String.eqb s EmptyString)
  end.

(** The exception classes the code raises, catches or lets through. *)
Inductive exn : Type :=
| InvalidRequestError
| PendingRollbackError
| NoResultFound
| MultipleResultsFound
| IntegrityError
| ValueError
| AttributeError
| NameError.

#[export] Instance exn_eq_dec : EqDecision exn.
Proof. solve_decision. Defined.

Inductive outcome (A : Type) : Type :=
| Ok (a : A)
| Raise (e : exn).
Arguments Ok {A} a.
Arguments Raise {A} e.

(** A method running against a state of type [S]. *)
Definition M (S A : Type) : Type := S -> outcome A * S.

Definition ret {S A} (a : A) : M S A := fun s => (Ok a, s).

Definition raise {S A} (e : exn) : M S A := fun s => (Raise e, s).

Definition bind {S A B} (m : M S A) (k : A -> M S B) : M S B :=
  fun s =>
    match m s with
    | (Ok a, s') => k a s'
    | (Raise e, s') => (Raise e, s')
    end.

(** [try: m  except e: h].  The handler runs in the state the body left. *)
Definition try_except {S A} (m : M S A) (e : exn) (h : M S A) : M S A :=
  fun s =>
    match m s with
    | (Ok a, s') => (Ok a, s')
    | (Raise e', s') => if bool_decide (e' = e) then h s' else (Raise e', s')
    end.

(** [try: m  except Exception: h]. *)
Definition try_except_any {S A} (m : M S A) (h : M S A) : M S A :=
  fun s =>
    match m s with
    | (Ok a, s') => (Ok a, s')
    | (Raise _, s') => h s'
    end.

Definition get {S} : M S S := fun s => (Ok s, s).
Definition put {S} (s : S) : M S unit := fun _ => (Ok tt, s).

(** Run a method of an inner object held in a field of the state. *)
Definition zoom {S T A} (proj : S -> T) (upd : T -> S -> S) (m : M T A) : M S A :=
  fun s => let (r, t) := m (proj s) in (r, upd t s).

End Py.

Import Py.

Declare Scope py_scope.
Delimit Scope py_scope with py.
Notation "x <- m ;; k" := (bind m (fun x => k))
  (at level 100, m at next level, right associativity) : py_scope.
Notation "m ;;; k" := (bind m (fun _ => k))
  (at level 100, right associativity) : py_scope.
Local Open Scope py_scope.

(** ** user.py *)

Module User.

(** A [User] object.  Python attributes hold any value; what the columns
    accept is checked when the session flushes ([DB.schema_ok]). *)
Record t : Type := mk {
  id : value;               (* Column(Integer, primary_key=True) *)
  email : value;            (* Column(String(250), nullable=False) *)
  hashed_password : value;  (* Column(String(250), nullable=False) *)
  session_id : value;       (* Column(String(250), nullable=True) *)
  reset_token : value       (* Column(String(250), nullable=True) *)
}.

#[global] Instance eq_dec : EqDecision t.
Proof. solve_decision. Defined.

(** [getattr(user, k)] for the five mapped columns. *)
Definition getattr (u : t) (k : string) : option value :=
  if String.eqb k "id" then Some (id u)
  else if String.eqb k "email" then Some (email u)
  else if String.eqb k "hashed_password" then Some (hashed_password u)
  else if String.eqb k "session_id" then Some (session_id u)
  else if String.eqb k "reset_token" then Some (reset_token u)
  else None.

(** [setattr(user, k, v)] on the five mapped columns.  The store calls it
    only behind its [VALID_FIELDS] guard, so the last branch is never taken
    there (Python would hang an unmapped attribute on the object). *)
Definition setattr (u : t) (k : string) (v : value) : t :=
  if String.eqb k "id" then mk v (email u) (hashed_password u) (session_id u) (reset_token u)
  else if String.eqb k "email" then mk (id u) v (hashed_password u) (session_id u) (reset_token u)
  else if String.eqb k "hashed_password" then mk (id u) (email u) v (session_id u) (reset_token u)
  else if String.eqb k "session_id" then mk (id u) (email u) (hashed_password u) v (reset_token u)
  else if String.eqb k "reset_token" then mk (id u) (email u) (hashed_password u) (session_id u) v
  else u.

End User.

(** ** db.py *)

Module DB.

Definition VALID_FIELDS : list string :=
  ["id"; "email"; "hashed_password"; "session_id"; "reset_token"].

(** The store as seen through the one SQLAlchemy session that [DB] keeps
    for its whole life ([self.__session]):
    - [rows]: the [User] objects of the session's identity map, in insertion
      order; an object is known by its position, so that a reference handed
      out by a query and a later [setattr] reach the same object;
    - [committed]: the table as of the last successful [session.commit()];
    - [needs_rollback]: a flush has failed; SQLAlchemy then refuses every
      further statement until [session.rollback()], which this code never
      calls. *)
Record t : Type := mk {
  rows : list User.t;
  committed : list User.t;
  needs_rollback : bool
}.

(** [DB()]: the tables are dropped and created afresh. *)
Definition init : t := mk [] [] false.

(** What the columns declared in user.py accept for one row: an integer,
    non-null primary key and the two [nullable=False] columns.  (SQLite's
    type affinity, which would store an [int] given for a string column as
    text, is not modelled: values are kept as given.) *)
Definition row_ok (u : User.t) : bool :=
  match User.id u with VInt _ => true | _ => false end
  && negb (value_eqb (User.email u) VNone)
  && negb (value_eqb (User.hashed_password u) VNone).

(** The table constraints: every row acceptable, primary keys distinct. *)
Definition schema_ok (rs : list User.t) : bool :=
  forallb row_ok rs && bool_decide (NoDup (User.id <$> rs)).

(** The session writes its pending state to the database.  It happens
    before every query (autoflush) and inside every commit. *)
Definition flush : M t unit :=
  fun db =>
    if needs_rollback db then (Raise PendingRollbackError, db)
    else if schema_ok (rows db) then (Ok tt, db)
    else (Raise IntegrityError, mk (rows db) (committed db) true).

(** [session.commit()] *)
Definition commit : M t unit :=
  flush ;;; (fun db => (Ok tt, mk (rows db) (rows db) (needs_rollback db))).

(** One criterion of [filter_by]: [column = v], and [column IS NULL] when
    [v] is [None]. *)
Definition criterion (u : User.t) (kv : string * value) : bool :=
  bool_decide (User.getattr u kv.1 = Some kv.2).

(** [session.query(User).filter_by(kwargs...)], each hit with its position. *)
Fixpoint filter_by (i : nat) (kwargs : list (string * value)) (rs : list User.t)
  : list (nat * User.t) :=
  match rs with
  | [] => []
  | u :: rs' =>
      if forallb (criterion u) kwargs
      then (i, u) :: filter_by (S i) kwargs rs'
      else filter_by (S i) kwargs rs'
  end.

(** [Query.one()] *)
Definition one {A} (hits : list A) : M t A :=
  match hits with
  | [x] => ret x
  | [] => raise NoResultFound
  | _ :: _ :: _ => raise MultipleResultsFound
  end.

(** [not kwargs or any(x not in VALID_FIELDS for x in kwargs)] *)
Definition bad_criteria (kwargs : list (string * value)) : bool :=
  bool_decide (kwargs = [])
  || existsb (fun kv => negb (bool_decide (kv.1 ∈ VALID_FIELDS))) kwargs.

(** [find_user_by(kwargs...)]: the reference to the found object (its
    position in the session) and its attributes at that moment. *)
Definition find_user_by (kwargs : list (string * value)) : M t (nat * User.t) :=
  if bad_criteria kwargs then raise InvalidRequestError
  else
    try_except_any
      (flush ;;; db <- get ;; one (filter_by 0 kwargs (rows db)))
      (raise NoResultFound).

(** The rowid SQLite gives to a row inserted without one: one more than the
    largest in use, 1 in an empty table.  (Ids stay within 64 bits.) *)
Fixpoint max_rowid (rs : list User.t) : option Z :=
  match rs with
  | [] => None
  | u :: rs' =>
      match User.id u, max_rowid rs' with
      | VInt z, Some m => Some (Z.max z m)
      | VInt z, None => Some z
      | _, m => m
      end
  end.

Definition next_rowid (rs : list User.t) : Z :=
  match max_rowid rs with
  | Some m => m + 1
  | None => 1
  end.

(** [add_user(email, hashed_password)] *)
Definition add_user (email hashed_password : value) : M t (option (nat * User.t)) :=
  if negb (truthy email) || negb (truthy hashed_password) then ret None
  else
    db <- get ;;
    let user := User.mk (VInt (next_rowid (rows db))) email hashed_password VNone VNone in
    put (mk (rows db ++ [user])%list (committed db) (needs_rollback db)) ;;;
    commit ;;;
    ret (Some (length (rows db), user)).

(** [setattr(user, k, v)] on the object at position [i] of the session. *)
Definition setattr_at (i : nat) (k : string) (v : value) : M t unit :=
  fun db =>
    (Ok tt, mk (alter (fun u => User.setattr u k v) i (rows db)) (committed db) (needs_rollback db)).

(** The loop of [update_user]: each key is checked just before it is set. *)
Fixpoint update_loop (i : nat) (kwargs : list (string * value)) : M t unit :=
  match kwargs with
  | [] => ret tt
  | (k, v) :: rest =>
      if negb (bool_decide (k ∈ VALID_FIELDS)) then raise ValueError
      else setattr_at i k v ;;; update_loop i rest
  end.

(** [update_user(user_id, kwargs...)] *)
Definition update_user (user_id : value) (kwargs : list (string * value)) : M t unit :=
  user <- find_user_by [("id", user_id)] ;;
  update_loop user.1 kwargs ;;;
  commit.

(** *** Vocabulary for the statements about the store *)

(** No failed flush behind it, and the session's rows satisfy the table
    constraints: the next flush succeeds. *)
Definition healthy (db : t) : bool :=
  negb (needs_rollback db) && schema_ok (rows db).

(** No two rows of the session carry the same email.  The schema does not
    ask for it; the [Auth] methods keep it ([register_user] looks the email
    up before it adds a row, and nothing in [Auth] changes an email). *)
Definition emails_unique (rs : list User.t) : bool :=
  bool_decide (NoDup (User.email <$> rs)).

(** [setattr] for each change in turn. *)
Definition apply_changes (u : User.t) (kwargs : list (string * value)) : User.t :=
  foldl (fun u kv => User.setattr u kv.1 kv.2) u kwargs.

(** The changes that come before the first key outside [VALID_FIELDS]. *)
Fixpoint checked_prefix (kwargs : list (string * value)) : list (string * value) :=
  match kwargs with
  | [] => []
  | kv :: rest =>
      if bool_decide (kv.1 ∈ VALID_FIELDS) then kv :: checked_prefix rest else []
  end.

Definition all_valid (kwargs : list (string * value)) : bool :=
  forallb (fun kv => bool_decide (kv.1 ∈ VALID_FIELDS)) kwargs.

(** The session after the object at position [i] went through [f]. *)
Definition touch (i : nat) (f : User.t -> User.t) (db : t) : t :=
  mk (alter f i (rows db)) (committed db) (needs_rollback db).

End DB.

(** ** 0x03-user_authentication_service/auth.py *)

Module Auth.

(** The bcrypt library, as the capability the code uses: [gensalt] draws a
    salt from the random source, [hashpw] hashes a password under a salt,
    [checkpw] verifies a password against a stored hash and raises
    [ValueError] (here [None]) on a string that is not a bcrypt hash. *)
Class Bcrypt : Type := {
  gensalt : nat -> string;
  hashpw : string -> string -> string;
  checkpw : string -> string -> option bool
}.

(** [str(uuid4())] on the [n]-th draw from the random source. *)
Class Uuid : Type := {
  uuid4 : nat -> string
}.

(** An [Auth] object: its store [_db], and next to it the number of draws
    taken so far from the process's random source. *)
Record t : Type := mk {
  _db : DB.t;
  entropy : nat
}.

(** [Auth()] *)
Definition init : t := mk DB.init 0.

(** A call [self._db.m(...)]. *)
Definition db {A} (m : M DB.t A) : M t A :=
  zoom _db (fun d a => mk d (entropy a)) m.

(** An [Auth] whose session holds the rows [rs], all of them committed,
    after [n] draws. *)
Definition stored (rs : list User.t) (n : nat) : t :=
  mk (DB.mk rs rs false) n.

Section Methods.
Context `{Bcrypt} `{Uuid}.

Definition _hash_password (password : string) : M t string :=
  fun a => (Ok (hashpw password (gensalt (entropy a))), mk (_db a) (S (entropy a))).

Definition _generate_uuid : M t string :=
  fun a => (Ok (uuid4 (entropy a)), mk (_db a) (S (entropy a))).

Definition register_user (email : value) (password : string)
  : M t (option (nat * User.t)) :=
  try_except
    (db (DB.find_user_by [("email", email)]) ;;;
     raise ValueError)
    NoResultFound
    (hashed <- _hash_password password ;;
     db (DB.add_user email (VStr hashed))).

Definition valid_login (email : value) (password : string) : M t bool :=
  found <- try_except
             (user <- db (DB.find_user_by [("email", email)]) ;; ret (Some user))
             NoResultFound
             (ret None) ;;
  match found with
  | None => ret false
  | Some user =>
      match User.hashed_password user.2 with
      | VStr hashed =>
          match checkpw password hashed with
          | Some b => ret b
          | None => raise ValueError
          end
      | _ => raise AttributeError
      end
  end.

Definition create_session (email : value) : M t (option string) :=
  try_except
    (user <- db (DB.find_user_by [("email", email)]) ;;
     sess_id <- _generate_uuid ;;
     db (DB.update_user (User.id user.2) [("session_id", VStr sess_id)]) ;;;
     ret (Some sess_id))
    NoResultFound
    (ret None).

Definition get_user_from_session_id (session_id : value) : M t value :=
  if bool_decide (session_id = VNone) then ret VNone
  else
    try_except
      (user <- db (DB.find_user_by [("session_id", session_id)]) ;;
       ret (User.email user.2))
      NoResultFound
      (ret VNone).

Definition destroy_session (user_id : value) : M t unit :=
  try_except
    (user <- db (DB.find_user_by [("id", user_id)]) ;;
     db (DB.update_user (User.id user.2) [("session_id", VNone)]))
    NoResultFound
    (ret tt).

(** The names bound at the top level of auth.py (its imports, functions
    and class). *)
Definition module_globals : list string :=
  ["DB"; "TypeVar"; "User"; "bcrypt"; "uuid4"; "NoResultFound";
   "_hash_password"; "_generate_uuid"; "Auth"].

(** Evaluating a global name inside a method of auth.py. *)
Definition load_global (name : string) : M t unit :=
  if bool_decide (name ∈ module_globals) then ret tt else raise NameError.

(** [get_reset_password_token(email)].  Under its docstring the method
    holds, instead of a body of its own, the text of an HTTP handler:
    [email = request.form.get('email')], then
    [token = AUTH.get_reset_password_token(email)] wrapped in [jsonify] and
    [abort].  No statement of it reads or writes [self._db] or draws a
    token, and its first statement evaluates the global [request]; neither
    that name nor [AUTH], [jsonify] or [abort] is bound in auth.py. *)
Definition get_reset_password_token (email : value) : M t string :=
  load_global "request" ;;;
  raise NameError.

Definition update_password (reset_token : value) (password : string) : M t unit :=
  try_except
    (user <- db (DB.find_user_by [("reset_token", reset_token)]) ;;
     hashed <- _hash_password password ;;
     db (DB.update_user (User.id user.2)
           [("hashed_password", VStr hashed); ("reset_token", VNone)]))
    NoResultFound
    (raise ValueError).

(** Every stored hash is a string that [checkpw] accepts to compare
    [password] with. *)
Definition checkable (password : string) (rs : list User.t) : bool :=
  forallb
    (fun u =>
       match User.hashed_password u with
       | VStr hashed => bool_decide (is_Some (checkpw password hashed))
       | _ => false
       end)
    rs.

(** The stored hash of [u] came out of [_hash_password]. *)
Definition hashed_here (u : User.t) : Prop :=
  exists password n, User.hashed_password u = VStr (hashpw password (gensalt n)).

(** The store is healthy, nothing is pending, and emails are unique. *)
Definition consistent (a : t) : bool :=
  DB.healthy (_db a)
  && bool_decide (DB.committed (_db a) = DB.rows (_db a))
  && DB.emails_unique (DB.rows (_db a)).

(** One call of a method of [Auth], from outside. *)
Inductive call : Type :=
| RegisterUser (email : value) (password : string)
| ValidLogin (email : value) (password : string)
| CreateSession (email : value)
| GetUserFromSessionId (session_id : value)
| DestroySession (user_id : value)
| GetResetPasswordToken (email : value)
| UpdatePassword (reset_token : value) (password : string).

(** The state a call leaves behind, whether it returned or raised. *)
Definition after (c : call) (a : t) : t :=
  match c with
  | RegisterUser email password => (register_user email password a).2
  | ValidLogin email password => (valid_login email password a).2
  | CreateSession email => (create_session email a).2
  | GetUserFromSessionId session_id => (get_user_from_session_id session_id a).2
  | DestroySession user_id => (destroy_session user_id a).2
  | GetResetPasswordToken email => (get_reset_password_token email a).2
  | UpdatePassword reset_token password => (update_password reset_token password a).2
  end.

(** The states a fresh [Auth()] gets into through its methods. *)
Inductive reachable : t -> Prop :=
| reachable_init : reachable init
| reachable_call a c : reachable a -> reachable (after c a).

End Methods.

End Auth.

(** ** 0x03-user_authentication_service/app.py *)

Module app.

(** What a view function gives back: a JSON body with a status, or
    [abort(status)]. *)
Inductive response : Type :=
| Json (status : nat) (body : list (string * string))
| Abort (status : nat).

(** [request.form.get(name)] is a [str] or [None]. *)
Definition form_value (field : option string) : value :=
  match field with
  | Some s => VStr s
  | None => VNone
  end.

(** The f-string of a form field. *)
Definition fstring (field : option string) : string :=
  match field with
  | Some s => s
  | None => "None"
  end.

Section Routes.
Context `{Auth.Bcrypt} `{Auth.Uuid}.

(** [POST /reset_password], against the global [AUTH]. *)
Definition get_reset_password_token (form_email : option string) : M Auth.t response :=
  let email := form_value form_email in
  user <- Auth.create_session email ;;
  if negb (match user with Some s => truthy (VStr s) | None => false end)
  then ret (Abort 403)
  else
    token <- Auth.get_reset_password_token email ;;
    ret (Json 200 [("email", fstring form_email); ("reset_token", token)]).

End Routes.

End app.

(** ** 0x02-Session_authentication/api/v1/auth/session_auth.py *)

Module SessionAuth.

(** The class attribute [user_id_by_session_id], shared by all instances,
    and the number of draws taken from the random source. *)
Record t : Type := mk {
  user_id_by_session_id : gmap string string;
  entropy : nat
}.

(** The class as defined: an empty dictionary. *)
Definition init : t := mk ∅ 0.

Section Methods.
Context `{Auth.Uuid}.

Definition create_session (user_id : value) : M t (option string) :=
  match user_id with
  | VStr uid =>
      if negb (truthy user_id) then ret None
      else
        fun c =>
          let session_id := Auth.uuid4 (entropy c) in
          (Ok (Some session_id),
           mk (<[uid := session_id]> (user_id_by_session_id c)) (S (entropy c)))
  | _ => ret None
  end.

Definition user_id_for_session_id (session_id : value) : M t (option string) :=
  match session_id with
  | VStr sid =>
      if negb (truthy session_id) then ret None
      else c <- get ;; ret (user_id_by_session_id c !! sid)
  | _ => ret None
  end.

End Methods.

End SessionAuth.

(** ** 0x03-user_authentication_service/app.py, the other view functions *)

Module app_routes.

(** What these view functions give back: a JSON body with a status and the
    cookies set on it, [redirect(location)], or [abort(status)]. *)
Inductive reply : Type :=
| Reply (status : nat) (body : list (string * string))
    (cookies : list (string * option string))
| Redirect (location : string)
| Aborted (status : nat).

(** [v.name] for a value that is [None], an [int] or a [str], and a name
    that is not an attribute of these ([id], [email]). *)
Definition attribute {S} (v : value) (name : string) : M S value :=
  raise AttributeError.

Section Routes.
Context `{Auth.Bcrypt} `{Auth.Uuid}.

(** [AUTH.register_user(email, password)] with the form's password, which
    is [None] when the field is missing: the lookup runs as ever, and
    [_hash_password] then fails on [password.encode]. *)
Definition register_user (email : value) (password : option string)
  : M Auth.t (option (nat * User.t)) :=
  match password with
  | Some p => Auth.register_user email p
  | None =>
      try_except
        (Auth.db (DB.find_user_by [("email", email)]) ;;;
         raise ValueError)
        NoResultFound
        (raise AttributeError)
  end.

(** [AUTH.valid_login(email, password)], likewise. *)
Definition valid_login (email : value) (password : option string) : M Auth.t bool :=
  match password with
  | Some p => Auth.valid_login email p
  | None =>
      found <- try_except
                 (user <- Auth.db (DB.find_user_by [("email", email)]) ;;
                  ret (Some user))
                 NoResultFound
                 (ret None) ;;
      match found with
      | None => ret false
      | Some _ => raise AttributeError
      end
  end.

(** [AUTH.update_password(reset_token, password)], likewise. *)
Definition update_password_call (reset_token : value) (password : option string)
  : M Auth.t unit :=
  match password with
  | Some p => Auth.update_password reset_token p
  | None =>
      try_except
        (Auth.db (DB.find_user_by [("reset_token", reset_token)]) ;;;
         raise AttributeError)
        NoResultFound
        (raise ValueError)
  end.

(** [POST /users] *)
Definition user (form_email form_password : option string) : M Auth.t reply :=
  let email := app.form_value form_email in
  try_except_any
    (register_user email form_password ;;;
     ret (Reply 200 [("email", app.fstring form_email); ("message", "user created")] []))
    (ret (Reply 400 [("message", "email already registered")] [])).

(** [POST /sessions] *)
Definition login (form_email form_password : option string) : M Auth.t reply :=
  let email := app.form_value form_email in
  ok <- valid_login email form_password ;;
  if ok then
    session_id <- Auth.create_session email ;;
    ret (Reply 200 [("email", app.fstring form_email); ("message", "logged in")]
           [("session_id", session_id)])
  else ret (Aborted 401).

(** [DELETE /sessions] *)
Definition logout (cookie : option string) : M Auth.t reply :=
  let session_id := app.form_value cookie in
  if negb (truthy session_id) then ret (Aborted 403)
  else
    user <- Auth.get_user_from_session_id session_id ;;
    if truthy user then
      user_id <- attribute user "id" ;;
      Auth.destroy_session user_id ;;;
      ret (Redirect "/")
    else ret (Aborted 403).

(** [GET /profile] *)
Definition profile (cookie : option string) : M Auth.t reply :=
  let session_id := app.form_value cookie in
  user <- Auth.get_user_from_session_id session_id ;;
  if truthy user then
    email <- attribute user "email" ;;
    ret (Reply 200 [("email", match email with VStr e => e | _ => "None" end)] [])
  else ret (Aborted 403).

(** [PUT /reset_password] *)
Definition update_password (form_email form_reset_token form_new_password : option string)
  : M Auth.t reply :=
  let reset_token := app.form_value form_reset_token in
  try_except_any
    (update_password_call reset_token form_new_password ;;;
     ret (Reply 200 [("email", app.fstring form_email); ("message", "Password updated")] []))
    (ret (Aborted 403)).

End Routes.

End app_routes.

(** ** Python strings *)

Module PyStr.

(** The exceptions of the string operations below. *)
Inductive error : Type :=
| IndexError.

(** [s[n:]] *)
Fixpoint drop (n : nat) (s : string) : string :=
  match n, s with
  | O, _ => s
  | S n', String _ rest => drop n' rest
  | S _, EmptyString => EmptyString
  end.

(** [s[-1]]; [None] stands for the [IndexError] of an empty string. *)
Fixpoint last (s : string) : option Ascii.ascii :=
  match s with
  | EmptyString => None
  | String c EmptyString => Some c
  | String _ rest => last rest
  end.

(** [c in s] for a one-character [c]. *)
Fixpoint contains (c : Ascii.ascii) (s : string) : bool :=
  match s with
  | EmptyString => false
  | String c' rest => Ascii.eqb c' c || contains c rest
  end.

(** [s.split(c, 1)] for a one-character [c] that occurs in [s]: what comes
    before the first [c] and what comes after it.  Without a [c] the whole
    string comes first. *)
Fixpoint split_once (c : Ascii.ascii) (s : string) : string * string :=
  match s with
  | EmptyString => (EmptyString, EmptyString)
  | String c' rest =>
      if Ascii.eqb c' c then (EmptyString, rest)
      else let (before, after) := split_once c rest in (String c' before, after)
  end.

End PyStr.

(** ** 0x02-Session_authentication/api/v1/auth/auth.py *)

Module ApiAuth.

(** [require_auth(path, excluded_paths)]; either argument may be [None]. *)
Definition require_auth (path : option string) (excluded_paths : option (list string))
  : PyStr.error + bool :=
  match path, excluded_paths with
  | None, _ => inr true
  | Some _, None => inr true
  | Some p, Some excluded =>
      if Nat.eqb (length excluded) 0 then inr true
      else
        match PyStr.last p with
        | None => inl PyStr.IndexError
        | Some c =>
            let check := if negb (Ascii.eqb c "/"%char) then p ++ "/" else p in
            if bool_decide (check ∈ excluded) || bool_decide (p ∈ excluded)
            then inr false
            else inr true
        end
  end.

(** A request, as far as the authentication classes read it. *)
Record request : Type := mk_request {
  headers : gmap string string;
  cookies : gmap string string
}.

(** [authorization_header(request)] *)
Definition authorization_header (req : option request) : option string :=
  match req with
  | None => None
  | Some r => headers r !! "Authorization"
  end.

(** [session_cookie(request)], with [getenv("SESSION_NAME")] as [session_name]. *)
Definition session_cookie (session_name : option string) (req : option request)
  : option string :=
  match req with
  | None => None
  | Some r =>
      match session_name with
      | Some name => cookies r !! name
      | None => None
      end
  end.

End ApiAuth.

(** ** 0x02-Session_authentication/api/v1/auth/basic_auth.py *)

Module BasicAuth.

Definition extract_base64_authorization_header (authorization_header : value)
  : option string :=
  match authorization_header with
  | VStr header =>
      if negb (String.prefix "Basic" header) then None
      else Some (PyStr.drop 6 header)
  | _ => None
  end.

Definition extract_user_credentials (decoded_base64_authorization_header : value)
  : option string * option string :=
  match decoded_base64_authorization_header with
  | VStr decoded_64 =>
      if truthy (VStr decoded_64) && PyStr.contains ":"%char decoded_64 then
        let res := PyStr.split_once ":"%char decoded_64 in
        (Some res.1, Some res.2)
      else (None, None)
  | _ => (None, None)
  end.

End BasicAuth.

(** ** The rest of session_auth.py *)

Module SessionAuthUser.

Section CurrentUser.
Context `{Auth.Uuid}.

(** [models.user.User] is not part of these sources: [User.get] is taken as
    given, from an id that may be [None] to a user or [None]. *)
Context {UserModel : Type} (User_get : option string -> option UserModel).

(** [current_user(request)] of [SessionAuth]. *)
Definition current_user (session_name : option string) (req : option ApiAuth.request)
  : M SessionAuth.t (option UserModel) :=
  match req with
  | None => ret None
  | Some _ =>
      match ApiAuth.session_cookie session_name req with
      | Some session_cookie =>
          if truthy (VStr session_cookie) then
            user_id <- SessionAuth.user_id_for_session_id (VStr session_cookie) ;;
            ret (User_get user_id)
          else ret None
      | None => ret None
      end
  end.

End CurrentUser.

End SessionAuthUser.

(** ** 0x00-personal_data/filtered_logger.py *)

Module filtered_logger.

Definition PII_FIELDS : list string := ["name"; "email"; "phone"; "ssn"; "password"].

Definition newline : Ascii.ascii := Ascii.ascii_of_nat 10.

(** A letter, a digit or an underscore. *)
Definition word_char (c : Ascii.ascii) : bool :=
  let n := Ascii.nat_of_ascii c in
  (Nat.leb 48 n && Nat.leb n 57) || (Nat.leb 65 n && Nat.leb n 90)
  || (Nat.leb 97 n && Nat.leb n 122) || Nat.eqb n 95.

(** A field name that stands for itself in a regular expression. *)
Fixpoint literal_name (f : string) : bool :=
  match f with
  | EmptyString => true
  | String c rest => word_char c && literal_name rest
  end.

(** A one-character separator [c] for which the pattern text [\c] matches
    [c] itself and which the replacement text takes as it is: an ASCII
    character that is no letter, digit or underscore and no backslash. *)
Definition plain_separator (c : Ascii.ascii) : bool :=
  negb (word_char c) && Nat.ltb (Ascii.nat_of_ascii c) 128
  && negb (Nat.eqb (Ascii.nat_of_ascii c) 92).

(** A redaction text without backslash. *)
Fixpoint plain_text (s : string) : bool :=
  match s with
  | EmptyString => true
  | String c rest => negb (Nat.eqb (Ascii.nat_of_ascii c) 92) && plain_text rest
  end.

(** [s] without its prefix [p], if it starts with it. *)
Fixpoint strip_prefix (p s : string) : option string :=
  match p, s with
  | EmptyString, _ => Some s
  | String a p', String b s' => if Ascii.eqb a b then strip_prefix p' s' else None
  | String _ _, EmptyString => None
  end.

(** The lazy group and the separator after it, [(.*?)\c], at the start of
    [s]: the number of characters up to and including the first [c], if no
    newline comes before it. *)
Fixpoint value_len (c : Ascii.ascii) (s : string) : option nat :=
  match s with
  | EmptyString => None
  | String x rest =>
      if Ascii.eqb x c then Some 1%nat
      else if Ascii.eqb x newline then None
      else option_map S (value_len c rest)
  end.

(** The length of the match of [f=(.*?)\c] at the start of [s], if any. *)
Definition match_len (f : string) (c : Ascii.ascii) (s : string) : option nat :=
  match strip_prefix (f ++ "=") s with
  | Some rest => option_map (fun n => (String.length f + 1 + n)%nat) (value_len c rest)
  | None => None
  end.

(** [re.sub] of that pattern by [f=redaction c], left to right: [skip]
    counts the characters still inside the match just replaced. *)
Fixpoint sub_from (f redaction : string) (c : Ascii.ascii) (skip : nat) (message : string)
  : string :=
  match message with
  | EmptyString => EmptyString
  | String x rest =>
      match skip with
      | S k => sub_from f redaction c k rest
      | O =>
          match match_len f c message with
          | Some n =>
              (f ++ "=" ++ redaction ++ String c EmptyString)
              ++ sub_from f redaction c (Nat.pred n) rest
          | None => String x (sub_from f redaction c 0 rest)
          end
      end
  end.

(** [filter_datum(fields, redaction, message, separator)] for a
    one-character separator, field names that satisfy [literal_name], a
    separator that satisfies [plain_separator] and a redaction that
    satisfies [plain_text]. *)
Definition filter_datum (fields : list string) (redaction message : string)
    (separator : Ascii.ascii) : string :=
  fold_left (fun message f => sub_from f redaction separator 0 message) fields message.

(** [RedactingFormatter(fields).format(record)], from the line that
    [logging.Formatter.format] makes of the record. *)
Definition format (fields : list string) (formatted_record : string) : string :=
  filter_datum fields "***" formatted_record ";"%char.

End filtered_logger.

(** ** Sample data *)

Module Sample.

(** A stand-in hasher: the hash is the salt's first character followed by
    the password; anything empty is not a hash. *)
Definition bcrypt : Auth.Bcrypt := {|
  Auth.gensalt n := "s" ++ pretty n;
  Auth.hashpw password salt := String.substring 0 1 salt ++ password;
  Auth.checkpw password hashed :=
    match hashed with
    | String _ rest => Some (String.eqb rest password)
    | EmptyString => None
    end
|}.

Definition uuid : Auth.Uuid := {| Auth.uuid4 n := "uuid-" ++ pretty n |}.

(** The row of a user registered as a@x.com, and a store holding it. *)
Definition alice : User.t :=
  User.mk (VInt 1) (VStr "a@x.com") (VStr "spw1") VNone VNone.

Definition store : DB.t := DB.mk [alice] [alice] false.

(** The same store after alice logged in and asked for a reset. *)
Definition alice_busy : User.t :=
  User.mk (VInt 1) (VStr "a@x.com") (VStr "spw1") (VStr "sess-1") (VStr "reset-1").

Definition busy_store : DB.t := DB.mk [alice_busy] [alice_busy] false.

End Sample.

(** * Properties *)

(** ** The store *)

(** Case analysis on the next comparison of a key against a column name. *)
Ltac case_key k :=
  match goal with
  | |- context [String.eqb k ?name] =>
      let E := fresh "E" in destruct (String.eqb_spec k name) as [E|E]
  end.

Section StoreFacts.

Implicit Types (db : DB.t) (rs : list User.t) (u : User.t)
  (kwargs : list (string * value)) (k : string) (v : value).

Lemma getattr_setattr_other u k k' v :
  k <> k' -> User.getattr (User.setattr u k v) k' = User.getattr u k'.
Proof.
  intros Hne. unfold User.setattr, User.getattr.
  repeat case_key k; simpl; repeat case_key k'; congruence.
Qed.

Lemma filter_by_index n kwargs rs j u :
  (j, u) ∈ DB.filter_by n kwargs rs ->
  exists i, j = (n + i)%nat /\ rs !! i = Some u
            /\ forallb (DB.criterion u) kwargs = true.
Proof.
  revert n. induction rs as [|u0 rs IH]; intros n; simpl.
  - intros Hin. inversion Hin.
  - destruct (forallb (DB.criterion u0) kwargs) eqn:E.
    + intros Hin. apply elem_of_cons in Hin as [Heq|Hin].
      * inversion Heq; subst. exists 0%nat. split; [lia|]. split; [reflexivity|exact E].
      * destruct (IH _ Hin) as (i & -> & Hi & Hm).
        exists (S i). split; [lia|]. split; assumption.
    + intros Hin. destruct (IH _ Hin) as (i & -> & Hi & Hm).
      exists (S i). split; [lia|]. split; assumption.
Qed.

Lemma filter_by_none n kwargs rs :
  (forall u, u ∈ rs -> forallb (DB.criterion u) kwargs = false) ->
  DB.filter_by n kwargs rs = [].
Proof.
  revert n. induction rs as [|u0 rs IH]; intros n Hnone; simpl; [reflexivity|].
  rewrite (Hnone u0) by (apply elem_of_cons; left; reflexivity).
  apply IH. intros u Hu. apply Hnone, elem_of_cons. right; exact Hu.
Qed.

Lemma filter_by_none_inv n kwargs rs u :
  DB.filter_by n kwargs rs = [] -> u ∈ rs ->
  forallb (DB.criterion u) kwargs = false.
Proof.
  revert n. induction rs as [|u0 rs IH]; intros n Hnil Hin; [inversion Hin|].
  simpl in Hnil. destruct (forallb (DB.criterion u0) kwargs) eqn:E; [discriminate|].
  apply elem_of_cons in Hin as [->|Hin]; [exact E|]. eapply IH; eassumption.
Qed.

(** A value held by no other row under a column singles its row out. *)
Lemma filter_by_key_unique n k v rs i u :
  NoDup ((fun u => User.getattr u k) <$> rs) ->
  rs !! i = Some u -> User.getattr u k = Some v ->
  DB.filter_by n [(k, v)] rs = [((n + i)%nat, u)].
Proof.
  revert n i. induction rs as [|u0 rs IH]; intros n i Hnd Hi Hget; [discriminate|].
  rewrite fmap_cons in Hnd. apply NoDup_cons in Hnd as [Hfresh Hnd].
  destruct i as [|i]; simpl in Hi.
  - injection Hi as ->. simpl. unfold DB.criterion at 1. simpl.
    rewrite Hget, bool_decide_eq_true_2 by reflexivity. simpl.
    rewrite Nat.add_0_r. f_equal.
    apply filter_by_none. intros u' Hu'. simpl. rewrite andb_true_r.
    unfold DB.criterion. simpl. apply bool_decide_eq_false_2. intros Heq.
    apply Hfresh. rewrite Hget, <- Heq.
    apply list_elem_of_fmap. exists u'. split; [reflexivity|exact Hu'].
  - simpl. unfold DB.criterion at 1. simpl.
    rewrite bool_decide_eq_false_2.
    + simpl. rewrite (IH (S n) i Hnd Hi Hget). do 2 f_equal. lia.
    + intros Heq. apply Hfresh. rewrite Heq, <- Hget.
      apply list_elem_of_fmap. exists u. split; [reflexivity|].
      eapply list_elem_of_lookup_2; eassumption.
Qed.

Lemma filter_by_app n kwargs rs u :
  DB.filter_by n kwargs (rs ++ [u])%list =
  (DB.filter_by n kwargs rs
   ++ (if forallb (DB.criterion u) kwargs then [((n + length rs)%nat, u)] else []))%list.
Proof.
  revert n. induction rs as [|u0 rs IH]; intros n; simpl.
  - rewrite Nat.add_0_r. destruct (forallb (DB.criterion u) kwargs); reflexivity.
  - rewrite IH, Nat.add_succ_r.
    destruct (forallb (DB.criterion u0) kwargs); reflexivity.
Qed.

(** The only hit stops matching: no hit is left. *)
Lemma filter_by_alter_gone n kwargs rs i u f :
  DB.filter_by n kwargs rs = [((n + i)%nat, u)] ->
  forallb (DB.criterion (f u)) kwargs = false ->
  DB.filter_by n kwargs (alter f i rs) = [].
Proof.
  revert n i. induction rs as [|u0 rs IH]; intros n i Hone Hgone; [discriminate|].
  simpl in Hone. destruct (forallb (DB.criterion u0) kwargs) eqn:E.
  - injection Hone as Hn -> Hrest.
    assert (i = 0%nat) as -> by lia. simpl. rewrite Hgone.
    apply filter_by_none. intros u' Hu'. eapply filter_by_none_inv; eassumption.
  - destruct i as [|i].
    + assert (Hin : ((n + 0)%nat, u) ∈ DB.filter_by (S n) kwargs rs)
        by (rewrite Hone; apply list_elem_of_singleton; reflexivity).
      apply filter_by_index in Hin as (j & Hj & _). lia.
    + simpl. rewrite E. apply (IH (S n) i); [|exact Hgone].
      rewrite Hone. do 2 f_equal. lia.
Qed.

(** A row starts matching where none did: it is the only hit. *)
Lemma filter_by_alter_new n kwargs rs i u f :
  DB.filter_by n kwargs rs = [] -> rs !! i = Some u ->
  forallb (DB.criterion (f u)) kwargs = true ->
  DB.filter_by n kwargs (alter f i rs) = [((n + i)%nat, f u)].
Proof.
  revert n i. induction rs as [|u0 rs IH]; intros n i Hnil Hi Hnew; [discriminate|].
  simpl in Hnil. destruct (forallb (DB.criterion u0) kwargs) eqn:E; [discriminate|].
  destruct i as [|i]; simpl in Hi.
  - injection Hi as ->. simpl. rewrite Hnew, Hnil, Nat.add_0_r. reflexivity.
  - change (alter f (S i) (u0 :: rs)) with (u0 :: alter f i rs).
    simpl. rewrite E, (IH (S n) i Hnil Hi Hnew). do 2 f_equal. lia.
Qed.

Lemma schema_ok_alter rs i f :
  DB.schema_ok rs = true ->
  (forall u, User.id (f u) = User.id u) ->
  (forall u, DB.row_ok u = true -> DB.row_ok (f u) = true) ->
  DB.schema_ok (alter f i rs) = true.
Proof.
  unfold DB.schema_ok. intros Hok Hid Hrow.
  apply andb_true_iff in Hok as [Hrows Hnd]. apply andb_true_iff. split.
  - clear Hnd. revert i. induction rs as [|u0 rs IH]; intros i; [reflexivity|].
    simpl in Hrows. apply andb_true_iff in Hrows as [H0 Hrs].
    destruct i as [|i].
    + change (alter f 0%nat (u0 :: rs)) with (f u0 :: rs). simpl.
      rewrite (Hrow _ H0), Hrs. reflexivity.
    + change (alter f (S i) (u0 :: rs)) with (u0 :: alter f i rs). simpl.
      rewrite H0, (IH Hrs). reflexivity.
  - replace (User.id <$> alter f i rs) with (User.id <$> rs); [exact Hnd|].
    clear Hrows Hnd. revert i. induction rs as [|u0 rs IH]; intros i; [reflexivity|].
    destruct i as [|i].
    + change (alter f 0%nat (u0 :: rs)) with (f u0 :: rs).
      rewrite !fmap_cons, Hid. reflexivity.
    + change (alter f (S i) (u0 :: rs)) with (u0 :: alter f i rs).
      rewrite !fmap_cons, <- IH. reflexivity.
Qed.

Lemma schema_ok_ids rs :
  DB.schema_ok rs = true -> NoDup ((fun u => User.getattr u "id") <$> rs).
Proof.
  unfold DB.schema_ok. intros Hok. apply andb_true_iff in Hok as [_ Hnd].
  apply bool_decide_eq_true_1 in Hnd.
  change (fun u => User.getattr u "id") with (Some ∘ User.id).
  rewrite list_fmap_compose. apply NoDup_fmap_2; [|exact Hnd].
  intros x y Hxy. injection Hxy as ->. reflexivity.
Qed.

Lemma healthy_inv db :
  DB.healthy db = true ->
  DB.needs_rollback db = false /\ DB.schema_ok (DB.rows db) = true.
Proof.
  unfold DB.healthy. intros Hh. apply andb_true_iff in Hh as [Hr Hs].
  apply negb_true_iff in Hr. split; assumption.
Qed.

Lemma flush_healthy db : DB.healthy db = true -> DB.flush db = (Ok tt, db).
Proof.
  intros Hh. apply healthy_inv in Hh as [Hr Hs]. unfold DB.flush.
  rewrite Hr, Hs. reflexivity.
Qed.

(** On a healthy session a lookup leaves the state alone and succeeds
    exactly when one row matches. *)
Lemma find_user_by_healthy kwargs db :
  DB.healthy db = true -> DB.bad_criteria kwargs = false ->
  DB.find_user_by kwargs db =
  (match DB.filter_by 0 kwargs (DB.rows db) with
   | [hit] => Ok hit
   | _ => Raise NoResultFound
   end, db).
Proof.
  intros Hh Hc. unfold DB.find_user_by. rewrite Hc.
  unfold try_except_any, bind. rewrite (flush_healthy _ Hh). simpl.
  destruct (DB.filter_by 0 kwargs (DB.rows db)) as [|hit [|hit' hits]]; reflexivity.
Qed.

Lemma find_user_by_id db i u :
  DB.healthy db = true -> DB.rows db !! i = Some u ->
  DB.find_user_by [("id", User.id u)] db = (Ok (i, u), db).
Proof.
  intros Hh Hi. rewrite find_user_by_healthy by (exact Hh || reflexivity).
  destruct (healthy_inv _ Hh) as [_ Hs].
  rewrite (filter_by_key_unique 0 "id" (User.id u) _ i u);
    [reflexivity|apply schema_ok_ids; exact Hs|exact Hi|reflexivity].
Qed.

Lemma touch_id i db : DB.touch i (fun u => u) db = db.
Proof.
  unfold DB.touch. destruct db as [rs c r]. simpl. f_equal.
  apply list_alter_id. reflexivity.
Qed.

Lemma checked_prefix_all_valid kwargs :
  DB.all_valid kwargs = true -> DB.checked_prefix kwargs = kwargs.
Proof.
  induction kwargs as [|kv rest IH]; simpl; [reflexivity|].
  intros Hv. apply andb_true_iff in Hv as [Hk Hrest].
  rewrite Hk, IH by exact Hrest. reflexivity.
Qed.

(** The loop of [update_user]: it sets every change up to the first key
    outside [VALID_FIELDS] and raises there. *)
Lemma update_loop_spec i kwargs db :
  DB.update_loop i kwargs db =
  (if DB.all_valid kwargs then Ok tt else Raise ValueError,
   DB.touch i (fun u => DB.apply_changes u (DB.checked_prefix kwargs)) db).
Proof.
  revert db. induction kwargs as [|[k v] rest IH]; intros db; simpl.
  - unfold ret. rewrite touch_id. reflexivity.
  - destruct (bool_decide (k ∈ DB.VALID_FIELDS)) eqn:Ek; simpl.
    + unfold bind, DB.setattr_at. rewrite IH. f_equal.
      unfold DB.touch. simpl. f_equal.
      rewrite list_alter_alter_eq. reflexivity.
    + unfold raise. rewrite touch_id. reflexivity.
Qed.

Lemma commit_spec db :
  DB.needs_rollback db = false ->
  DB.commit db =
  if DB.schema_ok (DB.rows db)
  then (Ok tt, DB.mk (DB.rows db) (DB.rows db) false)
  else (Raise IntegrityError, DB.mk (DB.rows db) (DB.committed db) true).
Proof.
  intros Hr. unfold DB.commit, bind, DB.flush. rewrite Hr.
  destruct (DB.schema_ok (DB.rows db)); simpl; rewrite ?Hr; reflexivity.
Qed.

(** [update_user] on a healthy session whose row [i] has the given id. *)
Lemma update_user_spec db i u kwargs :
  DB.healthy db = true -> DB.rows db !! i = Some u ->
  DB.update_user (User.id u) kwargs db =
  if DB.all_valid kwargs
  then DB.commit (DB.touch i (fun u => DB.apply_changes u kwargs) db)
  else (Raise ValueError,
        DB.touch i (fun u => DB.apply_changes u (DB.checked_prefix kwargs)) db).
Proof.
  intros Hh Hi. unfold DB.update_user, bind.
  rewrite (find_user_by_id _ _ _ Hh Hi). simpl. rewrite update_loop_spec.
  destruct (DB.all_valid kwargs) eqn:Ev; [|reflexivity].
  rewrite (checked_prefix_all_valid _ Ev). reflexivity.
Qed.

End StoreFacts.

(** ** [DB.update_user] and its whitelist *)

(** C3, as the code has it.  A call of [update_user] with a key outside
    [VALID_FIELDS] raises [ValueError] and commits nothing, but the keys are
    checked one at a time inside the loop that sets them: the changes that
    come before the first invalid key have been set on the session's user
    object (every other row is untouched), and nothing from the invalid key
    onward is.  When the invalid key comes first the session is unchanged. *)
Theorem update_user_invalid_key (db : DB.t) (i : nat) (u : User.t)
    (kwargs : list (string * value)) :
  DB.healthy db = true ->
  DB.rows db !! i = Some u ->
  DB.all_valid kwargs = false ->
  let out := DB.update_user (User.id u) kwargs db in
  out.1 = Raise ValueError
  /\ DB.committed out.2 = DB.committed db
  /\ DB.rows out.2 !! i = Some (DB.apply_changes u (DB.checked_prefix kwargs))
  /\ (forall j, j <> i -> DB.rows out.2 !! j = DB.rows db !! j)
  /\ (DB.checked_prefix kwargs = [] -> out.2 = db).
Proof.
  intros Hh Hi Hv out. subst out.
  rewrite (update_user_spec _ _ _ _ Hh Hi), Hv. simpl.
  split; [reflexivity|]. split; [reflexivity|]. split; [|split].
  - rewrite list_lookup_alter_eq, Hi. reflexivity.
  - intros j Hj. apply list_lookup_alter_ne. intros Heq. apply Hj. symmetry. exact Heq.
  - intros ->. apply touch_id.
Qed.

Lemma update_user_invalid_key_witness :
  let out := DB.update_user (VInt 1)
               [("email", VStr "new@x.com"); ("is_admin", VInt 1);
                ("session_id", VStr "s")] Sample.store in
  out.1 = Raise ValueError
  /\ DB.committed out.2 = [Sample.alice]
  /\ DB.rows out.2 !! 0%nat
     = Some (User.mk (VInt 1) (VStr "new@x.com") (VStr "spw1") VNone VNone).
Proof.
  pose proof (update_user_invalid_key Sample.store 0 Sample.alice
                [("email", VStr "new@x.com"); ("is_admin", VInt 1);
                 ("session_id", VStr "s")]
                eq_refl eq_refl eq_refl) as (H1 & H2 & H3 & _).
  split; [exact H1|]. split; [exact H2|exact H3].
Defined.

(** C3, as stated, fails.  On the store holding alice,
    [update_user(1, email="new@x.com", is_admin=1)] has a key outside the
    whitelist and raises [ValueError], yet the record's email has been
    changed by then, and the next lookup by the new email finds it. *)
Lemma update_user_partial_counterexample :
  let kwargs := [("email", VStr "new@x.com"); ("is_admin", VInt 1)] in
  let out := DB.update_user (VInt 1) kwargs Sample.store in
  DB.all_valid kwargs = false
  /\ out.1 = Raise ValueError
  /\ DB.rows Sample.store !! 0%nat = Some Sample.alice
  /\ DB.rows out.2 !! 0%nat
     = Some (User.setattr Sample.alice "email" (VStr "new@x.com"))
  /\ DB.rows out.2 <> DB.rows Sample.store
  /\ (DB.find_user_by [("email", VStr "new@x.com")] out.2).1
     = Ok (0%nat, User.setattr Sample.alice "email" (VStr "new@x.com")).
Proof.
  vm_compute. repeat split; try reflexivity. discriminate.
Qed.

(** C4, as the code has it.  [update_user] raises [ValueError] exactly when
    some key lies outside [VALID_FIELDS], which is id, email,
    hashed_password, session_id and reset_token.  With every key valid, each
    change is set on the target row and no other row is touched, a column
    that no change names keeps its value, and the result is committed when
    it satisfies the table constraints.  The key [id] is in the whitelist:
    an update naming it changes the identifier. *)
Theorem update_user_whitelist (db : DB.t) (i : nat) (u : User.t)
    (kwargs : list (string * value)) :
  DB.healthy db = true ->
  DB.rows db !! i = Some u ->
  let out := DB.update_user (User.id u) kwargs db in
  let rows' := alter (fun u => DB.apply_changes u kwargs) i (DB.rows db) in
  (out.1 = Raise ValueError <-> DB.all_valid kwargs = false)
  /\ (DB.all_valid kwargs = true -> DB.rows out.2 = rows')
  /\ (DB.all_valid kwargs = true -> DB.schema_ok rows' = true ->
      out = (Ok tt, DB.mk rows' rows' false))
  /\ (forall k, k ∉ kwargs.*1 ->
      User.getattr (DB.apply_changes u kwargs) k = User.getattr u k)
  /\ (forall v, User.id (DB.apply_changes u [("id", v)]) = v).
Proof.
  intros Hh Hi out rows'. subst out rows'.
  rewrite (update_user_spec _ _ _ _ Hh Hi).
  destruct (healthy_inv _ Hh) as [Hr _].
  assert (Hc : DB.commit (DB.touch i (fun u => DB.apply_changes u kwargs) db) =
               if DB.schema_ok (alter (fun u => DB.apply_changes u kwargs) i (DB.rows db))
               then (Ok tt, DB.mk (alter (fun u => DB.apply_changes u kwargs) i (DB.rows db))
                              (alter (fun u => DB.apply_changes u kwargs) i (DB.rows db)) false)
               else (Raise IntegrityError,
                     DB.mk (alter (fun u => DB.apply_changes u kwargs) i (DB.rows db))
                           (DB.committed db) true))
    by (rewrite commit_spec by exact Hr; reflexivity).
  split; [|split; [|split; [|split]]].
  - destruct (DB.all_valid kwargs); simpl.
    + rewrite Hc. destruct (DB.schema_ok _); simpl; split; discriminate.
    + split; reflexivity.
  - intros ->. rewrite Hc. destruct (DB.schema_ok _); reflexivity.
  - intros -> Hs. rewrite Hc, Hs. reflexivity.
  - clear. revert u. induction kwargs as [|[k' v'] rest IH]; intros u k Hk; [reflexivity|].
    simpl. rewrite fmap_cons in Hk. apply not_elem_of_cons in Hk as [Hne Hk].
    unfold DB.apply_changes in IH. rewrite (IH _ _ Hk).
    apply getattr_setattr_other. simpl in Hne. congruence.
  - reflexivity.
Qed.

Lemma update_user_whitelist_witness :
  DB.update_user (VInt 1) [("session_id", VStr "s"); ("reset_token", VStr "r")]
    Sample.store
  = (Ok tt,
     DB.mk [User.mk (VInt 1) (VStr "a@x.com") (VStr "spw1") (VStr "s") (VStr "r")]
           [User.mk (VInt 1) (VStr "a@x.com") (VStr "spw1") (VStr "s") (VStr "r")]
           false).
Proof.
  pose proof (update_user_whitelist Sample.store 0 Sample.alice
                [("session_id", VStr "s"); ("reset_token", VStr "r")]
                eq_refl eq_refl) as (_ & _ & H & _).
  exact (H eq_refl eq_refl).
Defined.

(** C4, as stated, fails.  On the store holding alice, whose identifier
    is 1, [update_user(1, id=5)] is accepted and committed, and her
    identifier is 5 afterwards. *)
Lemma update_user_changes_id_counterexample :
  let out := DB.update_user (VInt 1) [("id", VInt 5)] Sample.store in
  User.id <$> DB.rows Sample.store = [VInt 1]
  /\ out.1 = Ok tt
  /\ User.id <$> DB.rows out.2 = [VInt 5]
  /\ User.id <$> DB.committed out.2 = [VInt 5].
Proof.
  vm_compute. repeat split; reflexivity.
Qed.

(** ** The [Auth] methods *)

Section AuthFacts.
Context `{Auth.Bcrypt} `{Auth.Uuid}.

Implicit Types (a : Auth.t) (u : User.t) (kwargs : list (string * value)).

Lemma auth_find a kwargs :
  DB.healthy (Auth._db a) = true -> DB.bad_criteria kwargs = false ->
  Auth.db (DB.find_user_by kwargs) a =
  (match DB.filter_by 0 kwargs (DB.rows (Auth._db a)) with
   | [hit] => Ok hit
   | _ => Raise NoResultFound
   end, a).
Proof.
  intros Hh Hc. unfold Auth.db, zoom.
  rewrite (find_user_by_healthy _ _ Hh Hc). destruct a; reflexivity.
Qed.

Lemma auth_update a i u kwargs :
  DB.healthy (Auth._db a) = true ->
  DB.rows (Auth._db a) !! i = Some u ->
  DB.all_valid kwargs = true ->
  DB.schema_ok (alter (fun u => DB.apply_changes u kwargs) i (DB.rows (Auth._db a))) = true ->
  Auth.db (DB.update_user (User.id u) kwargs) a =
  (Ok tt,
   Auth.stored (alter (fun u => DB.apply_changes u kwargs) i (DB.rows (Auth._db a)))
     (Auth.entropy a)).
Proof.
  intros Hh Hi Hv Hs. unfold Auth.db, zoom.
  rewrite (update_user_spec _ _ _ _ Hh Hi), Hv.
  destruct (healthy_inv _ Hh) as [Hr _].
  rewrite commit_spec by exact Hr. simpl. rewrite Hs. reflexivity.
Qed.

Lemma hit_lookup kwargs (rs : list User.t) i u :
  DB.filter_by 0 kwargs rs = [(i, u)] ->
  rs !! i = Some u /\ forallb (DB.criterion u) kwargs = true.
Proof.
  intros Hone.
  assert (Hin : (i, u) ∈ DB.filter_by 0 kwargs rs)
    by (rewrite Hone; apply list_elem_of_singleton; reflexivity).
  apply filter_by_index in Hin as (j & -> & Hj & Hm). split; assumption.
Qed.

Lemma criterion_single u (k : string) (v : value) :
  forallb (DB.criterion u) [(k, v)] = true <-> User.getattr u k = Some v.
Proof.
  cbn [forallb]. rewrite andb_true_r. unfold DB.criterion.
  rewrite bool_decide_eq_true. reflexivity.
Qed.

Lemma stored_healthy (rs : list User.t) n :
  DB.schema_ok rs = true -> DB.healthy (Auth._db (Auth.stored rs n)) = true.
Proof. intros Hs. unfold DB.healthy. simpl. exact Hs. Qed.

End AuthFacts.

Section SessionFacts.
Context `{Auth.Bcrypt} `{Auth.Uuid}.

Implicit Types (a : Auth.t) (u : User.t).

Lemma set_session_schema (rs : list User.t) i v :
  DB.schema_ok rs = true ->
  DB.schema_ok (alter (fun u => User.setattr u "session_id" v) i rs) = true.
Proof.
  intros Hs. apply schema_ok_alter; [exact Hs|reflexivity|].
  intros u Hu. exact Hu.
Qed.

(** [create_session] for an email that one row carries: the row's
    [session_id] becomes the drawn uuid, and the change is committed. *)
Lemma create_session_found a email i u :
  DB.healthy (Auth._db a) = true ->
  DB.filter_by 0 [("email", email)] (DB.rows (Auth._db a)) = [(i, u)] ->
  Auth.create_session email a =
  (Ok (Some (Auth.uuid4 (Auth.entropy a))),
   Auth.stored
     (alter (fun u => User.setattr u "session_id" (VStr (Auth.uuid4 (Auth.entropy a))))
        i (DB.rows (Auth._db a)))
     (S (Auth.entropy a))).
Proof.
  intros Hh Hone. destruct (hit_lookup _ _ _ _ Hone) as [Hi _].
  destruct (healthy_inv _ Hh) as [_ Hs].
  unfold Auth.create_session, try_except, bind.
  rewrite (auth_find _ _ Hh) by reflexivity. rewrite Hone.
  unfold Auth._generate_uuid. cbn [snd].
  erewrite (auth_update _ i u);
    [reflexivity | exact Hh | exact Hi | reflexivity
    | apply (set_session_schema _ _ _ Hs)].
Qed.

Lemma create_session_not_found a email :
  DB.healthy (Auth._db a) = true ->
  DB.filter_by 0 [("email", email)] (DB.rows (Auth._db a)) = [] ->
  Auth.create_session email a = (Ok None, a).
Proof.
  intros Hh Hnil. unfold Auth.create_session, try_except, bind.
  rewrite (auth_find _ _ Hh) by reflexivity. rewrite Hnil. reflexivity.
Qed.

Lemma get_user_found a (s : string) i u :
  DB.healthy (Auth._db a) = true ->
  DB.filter_by 0 [("session_id", VStr s)] (DB.rows (Auth._db a)) = [(i, u)] ->
  Auth.get_user_from_session_id (VStr s) a = (Ok (User.email u), a).
Proof.
  intros Hh Hone. unfold Auth.get_user_from_session_id.
  rewrite bool_decide_eq_false_2 by discriminate.
  unfold try_except, bind.
  rewrite (auth_find _ _ Hh) by reflexivity. rewrite Hone. reflexivity.
Qed.

Lemma get_user_not_found a (s : string) :
  DB.healthy (Auth._db a) = true ->
  DB.filter_by 0 [("session_id", VStr s)] (DB.rows (Auth._db a)) = [] ->
  Auth.get_user_from_session_id (VStr s) a = (Ok VNone, a).
Proof.
  intros Hh Hnil. unfold Auth.get_user_from_session_id.
  rewrite bool_decide_eq_false_2 by discriminate.
  unfold try_except, bind.
  rewrite (auth_find _ _ Hh) by reflexivity. rewrite Hnil. reflexivity.
Qed.

(** C9.  On a healthy store, for an email carried by one record and a drawn
    token that no record holds yet: [create_session] returns the token, the
    token is stored in that record's [session_id], and
    [get_user_from_session_id] on the token right after returns that
    record's email.  For an email carried by no record [create_session]
    returns [None] and changes nothing, and [get_user_from_session_id(None)]
    returns [None]. *)
Theorem create_session_then_resolve a (e : string) :
  DB.healthy (Auth._db a) = true ->
  let rs := DB.rows (Auth._db a) in
  let T := Auth.uuid4 (Auth.entropy a) in
  (forall i u,
      DB.filter_by 0 [("email", VStr e)] rs = [(i, u)] ->
      DB.filter_by 0 [("session_id", VStr T)] rs = [] ->
      let out := Auth.create_session (VStr e) a in
      out.1 = Ok (Some T)
      /\ DB.rows (Auth._db out.2) !! i = Some (User.setattr u "session_id" (VStr T))
      /\ DB.committed (Auth._db out.2) = DB.rows (Auth._db out.2)
      /\ Auth.get_user_from_session_id (VStr T) out.2 = (Ok (VStr e), out.2))
  /\ (DB.filter_by 0 [("email", VStr e)] rs = [] ->
      Auth.create_session (VStr e) a = (Ok None, a))
  /\ Auth.get_user_from_session_id VNone a = (Ok VNone, a).
Proof.
  intros Hh rs T. subst rs T. split; [|split].
  - intros i u Hone Hfresh out. subst out.
    rewrite (create_session_found _ _ _ _ Hh Hone). cbn [fst snd].
    destruct (hit_lookup _ _ _ _ Hone) as [Hi Hm].
    destruct (healthy_inv _ Hh) as [_ Hs].
    split; [reflexivity|]. split; [|split; [reflexivity|]].
    + simpl. rewrite list_lookup_alter_eq, Hi. reflexivity.
    + erewrite get_user_found;
        [|apply stored_healthy, set_session_schema, Hs
         |apply (filter_by_alter_new 0 _ _ i u _ Hfresh Hi);
          cbn [forallb]; unfold DB.criterion;
          rewrite bool_decide_eq_true_2 by reflexivity; reflexivity].
      simpl. do 2 f_equal.
      apply criterion_single in Hm. injection Hm as ->. reflexivity.
  - apply create_session_not_found. exact Hh.
  - reflexivity.
Qed.

End SessionFacts.

Lemma create_session_then_resolve_witness :
  let a := Auth.stored [Sample.alice] 1 in
  let out := @Auth.create_session Sample.uuid (VStr "a@x.com") a in
  out.1 = Ok (Some "uuid-1")
  /\ @Auth.get_user_from_session_id (VStr "uuid-1") out.2 = (Ok (VStr "a@x.com"), out.2).
Proof.
  destruct (@create_session_then_resolve Sample.uuid
              (Auth.stored [Sample.alice] 1) "a@x.com" eq_refl) as (Hfound & _ & _).
  destruct (Hfound 0%nat Sample.alice eq_refl eq_refl) as (H1 & _ & _ & H4).
  split; [exact H1|exact H4].
Defined.

Section DestroyFacts.
Context `{Auth.Bcrypt} `{Auth.Uuid}.

Implicit Types (a : Auth.t) (u : User.t).

Lemma alter_fixed (rs : list User.t) i u (f : User.t -> User.t) :
  rs !! i = Some u -> f u = u -> alter f i rs = rs.
Proof.
  revert i. induction rs as [|u0 rs IH]; intros i Hi Hf; [reflexivity|].
  destruct i as [|i]; simpl in Hi.
  - injection Hi as ->. change (alter f 0%nat (u :: rs)) with (f u :: rs).
    rewrite Hf. reflexivity.
  - change (alter f (S i) (u0 :: rs)) with (u0 :: alter f i rs).
    rewrite (IH i Hi Hf). reflexivity.
Qed.

Lemma settled_stored a :
  DB.healthy (Auth._db a) = true ->
  DB.committed (Auth._db a) = DB.rows (Auth._db a) ->
  a = Auth.stored (DB.rows (Auth._db a)) (Auth.entropy a).
Proof.
  intros Hh Hc. destruct (healthy_inv _ Hh) as [Hr _].
  destruct a as [[rs c r] n]. simpl in *. subst. reflexivity.
Qed.

(** What [destroy_session] does on a healthy store. *)
Lemma destroy_session_run a (user_id : value) :
  DB.healthy (Auth._db a) = true ->
  Auth.destroy_session user_id a =
  match DB.filter_by 0 [("id", user_id)] (DB.rows (Auth._db a)) with
  | [(i, u)] =>
      (Ok tt,
       Auth.stored (alter (fun u => User.setattr u "session_id" VNone) i
                      (DB.rows (Auth._db a)))
         (Auth.entropy a))
  | _ => (Ok tt, a)
  end.
Proof.
  intros Hh. destruct (healthy_inv _ Hh) as [_ Hs].
  unfold Auth.destroy_session, try_except, bind.
  rewrite (auth_find _ _ Hh) by reflexivity.
  destruct (DB.filter_by 0 [("id", user_id)] (DB.rows (Auth._db a)))
    as [|[i u] [|hit hits]] eqn:E; try reflexivity.
  destruct (hit_lookup _ _ _ _ E) as [Hi _]. cbn [snd].
  erewrite (auth_update _ i u);
    [reflexivity | exact Hh | exact Hi | reflexivity
    | apply (set_session_schema _ _ _ Hs)].
Qed.

Lemma hit_by_id (rs : list User.t) i u :
  DB.schema_ok rs = true -> rs !! i = Some u ->
  DB.filter_by 0 [("id", User.id u)] rs = [(i, u)].
Proof.
  intros Hs Hi.
  apply (filter_by_key_unique 0 "id" (User.id u) rs i u);
    [apply schema_ok_ids; exact Hs|exact Hi|reflexivity].
Qed.

(** Destroying the session of a user who has none, or of nobody, leaves a
    settled store exactly as it was. *)
Lemma destroy_session_absent a (user_id : value) :
  DB.healthy (Auth._db a) = true ->
  DB.committed (Auth._db a) = DB.rows (Auth._db a) ->
  (forall u, u ∈ DB.rows (Auth._db a) -> User.id u = user_id ->
             User.session_id u = VNone) ->
  Auth.destroy_session user_id a = (Ok tt, a).
Proof.
  intros Hh Hc Hnone. rewrite (destroy_session_run _ _ Hh).
  destruct (DB.filter_by 0 [("id", user_id)] (DB.rows (Auth._db a)))
    as [|[i u] [|hit hits]] eqn:E; try reflexivity.
  destruct (hit_lookup _ _ _ _ E) as [Hi Hm].
  apply criterion_single in Hm. injection Hm as Hid.
  rewrite (alter_fixed _ i u).
  - rewrite <- (settled_stored _ Hh Hc). reflexivity.
  - exact Hi.
  - assert (Hn : User.session_id u = VNone)
      by (apply Hnone; [eapply list_elem_of_lookup_2; exact Hi|exact Hid]).
    destruct u; simpl in *; subst; reflexivity.
Qed.

(** C8.  On a healthy, settled store and for every user id:
    [destroy_session] raises nothing; a session token that resolved to this
    user before no longer resolves afterwards ([get_user_from_session_id]
    returns [None]); a second [destroy_session] right after changes nothing
    and raises nothing; and when the user has no session, or does not exist,
    the first call already changes nothing. *)
Theorem destroy_session_then_resolve a (user_id : value) :
  DB.healthy (Auth._db a) = true ->
  DB.committed (Auth._db a) = DB.rows (Auth._db a) ->
  let out := Auth.destroy_session user_id a in
  out.1 = Ok tt
  /\ (forall (T : string) i u,
        DB.filter_by 0 [("session_id", VStr T)] (DB.rows (Auth._db a)) = [(i, u)] ->
        User.id u = user_id ->
        Auth.get_user_from_session_id (VStr T) out.2 = (Ok VNone, out.2))
  /\ Auth.destroy_session user_id out.2 = (Ok tt, out.2)
  /\ ((forall u, u ∈ DB.rows (Auth._db a) -> User.id u = user_id ->
                 User.session_id u = VNone) ->
      out.2 = a).
Proof.
  intros Hh Hc out. subst out.
  destruct (healthy_inv _ Hh) as [_ Hs].
  pose proof (destroy_session_run a user_id Hh) as Hrun.
  destruct (DB.filter_by 0 [("id", user_id)] (DB.rows (Auth._db a)))
    as [|[i u] [|hit hits]] eqn:E; rewrite Hrun; cbn [fst snd].
  - (* nobody has this id *)
    split; [reflexivity|]. split; [|split].
    + intros T i u Hone Hid. destruct (hit_lookup _ _ _ _ Hone) as [Hi _].
      rewrite <- Hid, (hit_by_id _ _ _ Hs Hi) in E. discriminate.
    + rewrite Hrun. reflexivity.
    + reflexivity.
  - (* the user is found at position i *)
    destruct (hit_lookup _ _ _ _ E) as [Hi Hm].
    apply criterion_single in Hm. injection Hm as Hid.
    pose proof (set_session_schema _ i VNone Hs) as Hs'.
    split; [reflexivity|]. split; [|split].
    + intros T i' u' Hone Hid'. destruct (hit_lookup _ _ _ _ Hone) as [Hi' _].
      rewrite <- Hid', (hit_by_id _ _ _ Hs Hi') in E. injection E as -> ->.
      apply get_user_not_found; [apply stored_healthy; exact Hs'|].
      simpl DB.rows.
      apply (filter_by_alter_gone 0 _ _ i u _ Hone).
      cbn [forallb]. unfold DB.criterion.
      rewrite bool_decide_eq_false_2 by discriminate. reflexivity.
    + apply destroy_session_absent;
        [apply stored_healthy; exact Hs'|reflexivity|].
      simpl DB.rows. intros u' Hu' Hid'.
      apply list_elem_of_lookup_1 in Hu' as [j Hj].
      destruct (decide (j = i)) as [->|Hne].
      * rewrite list_lookup_alter_eq, Hi in Hj. injection Hj as <-. reflexivity.
      * rewrite list_lookup_alter_ne in Hj by congruence.
        pose proof (hit_by_id _ _ _ Hs Hj) as Ej.
        rewrite Hid', <- Hid, (hit_by_id _ _ _ Hs Hi) in Ej.
        injection Ej as -> _. congruence.
    + intros Hnone. rewrite (alter_fixed _ i u).
      * symmetry. apply settled_stored; assumption.
      * exact Hi.
      * assert (Hn : User.session_id u = VNone)
          by (apply Hnone; [eapply list_elem_of_lookup_2; exact Hi|exact Hid]).
        destruct u; simpl in *; subst; reflexivity.
  - (* several rows with this id: excluded by the primary key *)
    split; [reflexivity|]. split; [|split].
    + intros T i' u' Hone Hid'. destruct (hit_lookup _ _ _ _ Hone) as [Hi' _].
      rewrite <- Hid', (hit_by_id _ _ _ Hs Hi') in E. discriminate.
    + rewrite Hrun. reflexivity.
    + reflexivity.
Qed.

End DestroyFacts.

Lemma destroy_session_then_resolve_witness :
  let a := Auth.stored [Sample.alice_busy] 2 in
  let out := Auth.destroy_session (VInt 1) a in
  out.1 = Ok tt
  /\ Auth.get_user_from_session_id (VStr "sess-1") a = (Ok (VStr "a@x.com"), a)
  /\ Auth.get_user_from_session_id (VStr "sess-1") out.2 = (Ok VNone, out.2)
  /\ Auth.destroy_session (VInt 1) out.2 = (Ok tt, out.2).
Proof.
  destruct (destroy_session_then_resolve (Auth.stored [Sample.alice_busy] 2)
              (VInt 1) eq_refl eq_refl) as (H1 & H2 & H3 & _).
  split; [exact H1|]. split; [reflexivity|]. split; [|exact H3].
  exact (H2 "sess-1" 0%nat Sample.alice_busy eq_refl eq_refl).
Defined.

Section PasswordFacts.
Context `{Auth.Bcrypt} `{Auth.Uuid}.

Implicit Types (a : Auth.t) (u : User.t).

(** The two changes [update_password] hands to [update_user]. *)
Lemma redeem_changes u (hashed : string) :
  DB.apply_changes u [("hashed_password", VStr hashed); ("reset_token", VNone)]
  = User.mk (User.id u) (User.email u) (VStr hashed) (User.session_id u) VNone.
Proof. reflexivity. Qed.

Lemma redeem_schema (rs : list User.t) i (hashed : string) :
  DB.schema_ok rs = true ->
  DB.schema_ok
    (alter (fun u => DB.apply_changes u
                       [("hashed_password", VStr hashed); ("reset_token", VNone)])
       i rs) = true.
Proof.
  intros Hs. apply schema_ok_alter; [exact Hs|reflexivity|].
  intros u Hu. rewrite redeem_changes. unfold DB.row_ok in *. simpl.
  apply andb_true_iff in Hu as [Hu _]. rewrite Hu. reflexivity.
Qed.

(** What [update_password] does on a healthy store. *)
Lemma update_password_run a (reset_token : value) (password : string) :
  DB.healthy (Auth._db a) = true ->
  Auth.update_password reset_token password a =
  match DB.filter_by 0 [("reset_token", reset_token)] (DB.rows (Auth._db a)) with
  | [(i, u)] =>
      (Ok tt,
       Auth.stored
         (alter (fun u => DB.apply_changes u
                   [("hashed_password",
                     VStr (Auth.hashpw password (Auth.gensalt (Auth.entropy a))));
                    ("reset_token", VNone)])
            i (DB.rows (Auth._db a)))
         (S (Auth.entropy a)))
  | _ => (Raise ValueError, a)
  end.
Proof.
  intros Hh. destruct (healthy_inv _ Hh) as [_ Hs].
  unfold Auth.update_password, try_except, bind.
  rewrite (auth_find _ _ Hh) by reflexivity.
  destruct (DB.filter_by 0 [("reset_token", reset_token)] (DB.rows (Auth._db a)))
    as [|[i u] [|hit hits]] eqn:E; try reflexivity.
  destruct (hit_lookup _ _ _ _ E) as [Hi _].
  unfold Auth._hash_password. cbn [snd].
  erewrite (auth_update _ i u);
    [reflexivity | exact Hh | exact Hi | reflexivity
    | apply (redeem_schema _ _ _ Hs)].
Qed.

(** C5.  On a healthy store, for every reset token and new password.  If
    exactly one record carries the token, [update_password] succeeds: that
    record gets the hash of the new password and a null reset token, both in
    the one commit, and no other record changes; the same token presented
    once more then raises [ValueError] and changes nothing.  If no record
    carries the token, [update_password] raises [ValueError] and changes
    nothing. *)
Theorem update_password_redeems a (T password : string) :
  DB.healthy (Auth._db a) = true ->
  let rs := DB.rows (Auth._db a) in
  let hashed := Auth.hashpw password (Auth.gensalt (Auth.entropy a)) in
  (forall i u,
      DB.filter_by 0 [("reset_token", VStr T)] rs = [(i, u)] ->
      let out := Auth.update_password (VStr T) password a in
      out.1 = Ok tt
      /\ DB.rows (Auth._db out.2) !! i
         = Some (User.mk (User.id u) (User.email u) (VStr hashed)
                   (User.session_id u) VNone)
      /\ (forall j, j <> i -> DB.rows (Auth._db out.2) !! j = rs !! j)
      /\ DB.committed (Auth._db out.2) = DB.rows (Auth._db out.2)
      /\ (forall password',
             Auth.update_password (VStr T) password' out.2
             = (Raise ValueError, out.2)))
  /\ (DB.filter_by 0 [("reset_token", VStr T)] rs = [] ->
      Auth.update_password (VStr T) password a = (Raise ValueError, a)).
Proof.
  intros Hh rs hashed. subst rs hashed.
  destruct (healthy_inv _ Hh) as [_ Hs]. split.
  - intros i u Hone out. subst out.
    rewrite (update_password_run _ _ _ Hh), Hone. cbn [fst snd].
    destruct (hit_lookup _ _ _ _ Hone) as [Hi _].
    split; [reflexivity|]. split; [|split; [|split; [reflexivity|]]].
    + simpl. rewrite list_lookup_alter_eq, Hi. reflexivity.
    + intros j Hj. simpl. apply list_lookup_alter_ne. congruence.
    + intros password'. rewrite update_password_run
        by (apply stored_healthy, redeem_schema, Hs).
      simpl DB.rows.
      rewrite (filter_by_alter_gone 0 _ _ i u _ Hone); [reflexivity|].
      cbn [forallb]. unfold DB.criterion.
      rewrite bool_decide_eq_false_2 by (intros Hx; cbv in Hx; discriminate).
      reflexivity.
  - intros Hnil. rewrite (update_password_run _ _ _ Hh), Hnil. reflexivity.
Qed.

Lemma emails_unique_getattr (rs : list User.t) :
  NoDup (User.email <$> rs) -> NoDup ((fun u => User.getattr u "email") <$> rs).
Proof.
  intros Hnd. change (fun u => User.getattr u "email") with (Some ∘ User.email).
  rewrite list_fmap_compose. apply NoDup_fmap_2; [|exact Hnd].
  intros x y Hxy. injection Hxy as ->. reflexivity.
Qed.

(** With unique emails a lookup by email has at most one hit. *)
Lemma hit_by_email (rs : list User.t) i u :
  NoDup (User.email <$> rs) -> rs !! i = Some u ->
  DB.filter_by 0 [("email", User.email u)] rs = [(i, u)].
Proof.
  intros Hnd Hi.
  apply (filter_by_key_unique 0 "email" (User.email u) rs i u);
    [apply emails_unique_getattr; exact Hnd|exact Hi|reflexivity].
Qed.

Lemma email_hits (rs : list User.t) (email : value) :
  NoDup (User.email <$> rs) ->
  DB.filter_by 0 [("email", email)] rs = []
  \/ exists i u, DB.filter_by 0 [("email", email)] rs = [(i, u)].
Proof.
  intros Hnd.
  destruct (DB.filter_by 0 [("email", email)] rs) as [|[i u] hits] eqn:E;
    [left; reflexivity|right].
  assert (Hin : (i, u) ∈ DB.filter_by 0 [("email", email)] rs)
    by (rewrite E; apply elem_of_cons; left; reflexivity).
  apply filter_by_index in Hin as (j & -> & Hj & Hm).
  apply criterion_single in Hm. injection Hm as Hm.
  pose proof (hit_by_email _ _ _ Hnd Hj) as E'. rewrite Hm, E in E'.
  exists (0 + j)%nat, u. exact E'.
Qed.

(** What [valid_login] does on a healthy store. *)
Lemma valid_login_run a (email : value) (password : string) :
  DB.healthy (Auth._db a) = true ->
  Auth.valid_login email password a =
  match DB.filter_by 0 [("email", email)] (DB.rows (Auth._db a)) with
  | [(i, u)] =>
      (match User.hashed_password u with
       | VStr hashed =>
           match Auth.checkpw password hashed with
           | Some b => Ok b
           | None => Raise ValueError
           end
       | _ => Raise AttributeError
       end, a)
  | _ => (Ok false, a)
  end.
Proof.
  intros Hh. unfold Auth.valid_login, try_except, bind.
  rewrite (auth_find _ _ Hh) by reflexivity.
  destruct (DB.filter_by 0 [("email", email)] (DB.rows (Auth._db a)))
    as [|[i u] [|hit hits]]; try reflexivity.
  simpl. destruct (User.hashed_password u); try reflexivity.
  destruct (Auth.checkpw password s); reflexivity.
Qed.

(** C6.  On a healthy store with unique emails whose stored hashes
    [checkpw] can read: for every email and password [valid_login] raises
    nothing, leaves the store as it is, and returns [True] exactly when a
    record with that email exists and [checkpw] verifies the password
    against its stored hash; for every other pair, an unknown email
    included, it returns [False]. *)
Theorem valid_login_iff a (e password : string) :
  DB.healthy (Auth._db a) = true ->
  DB.emails_unique (DB.rows (Auth._db a)) = true ->
  Auth.checkable password (DB.rows (Auth._db a)) = true ->
  exists b : bool,
    Auth.valid_login (VStr e) password a = (Ok b, a)
    /\ (b = true <->
        exists u hashed,
          u ∈ DB.rows (Auth._db a)
          /\ User.email u = VStr e
          /\ User.hashed_password u = VStr hashed
          /\ Auth.checkpw password hashed = Some true).
Proof.
  intros Hh Hnd Hck. apply bool_decide_eq_true_1 in Hnd.
  rewrite (valid_login_run _ _ _ Hh).
  destruct (email_hits _ (VStr e) Hnd) as [E|(i & u & E)]; rewrite E.
  - exists false. split; [reflexivity|]. split; [discriminate|].
    intros (u & hashed & Hu & He & _).
    pose proof (filter_by_none_inv _ _ _ _ E Hu) as Hm.
    assert (Hy : forallb (DB.criterion u) [("email", VStr e)] = true)
      by (apply criterion_single; rewrite <- He; reflexivity).
    congruence.
  - destruct (hit_lookup _ _ _ _ E) as [Hi Hm].
    apply criterion_single in Hm. injection Hm as He.
    assert (Hu : u ∈ DB.rows (Auth._db a))
      by (eapply list_elem_of_lookup_2; exact Hi).
    unfold Auth.checkable in Hck. rewrite forallb_forall in Hck.
    specialize (Hck u (proj1 (list_elem_of_In _ _) Hu)).
    destruct (User.hashed_password u) as [| |hashed] eqn:Eh; try discriminate.
    apply bool_decide_eq_true_1 in Hck. destruct Hck as [b Hb]. rewrite Hb.
    exists b. split; [reflexivity|]. split.
    + intros ->. exists u, hashed. repeat split; assumption.
    + intros (u' & hashed' & Hu' & He' & Eh' & Hb').
      apply list_elem_of_lookup_1 in Hu' as [j Hj].
      pose proof (hit_by_email _ _ _ Hnd Hj) as E'.
      rewrite He', E in E'. injection E' as -> ->. congruence.
Qed.

End PasswordFacts.

Lemma update_password_redeems_witness :
  let a := Auth.stored [Sample.alice_busy] 2 in
  let out := @Auth.update_password Sample.bcrypt (VStr "reset-1") "pw2" a in
  out.1 = Ok tt
  /\ DB.rows (Auth._db out.2) !! 0%nat
     = Some (User.mk (VInt 1) (VStr "a@x.com") (VStr "spw2") (VStr "sess-1") VNone)
  /\ @Auth.update_password Sample.bcrypt (VStr "reset-1") "pw3" out.2
     = (Raise ValueError, out.2)
  /\ @Auth.update_password Sample.bcrypt (VStr "reset-9") "pw2" a
     = (Raise ValueError, a).
Proof.
  destruct (@update_password_redeems Sample.bcrypt
              (Auth.stored [Sample.alice_busy] 2) "reset-1" "pw2" eq_refl)
    as (Hone & _).
  destruct (Hone 0%nat Sample.alice_busy eq_refl) as (H1 & H2 & _ & _ & H5).
  destruct (@update_password_redeems Sample.bcrypt
              (Auth.stored [Sample.alice_busy] 2) "reset-9" "pw2" eq_refl)
    as (_ & Hnone).
  split; [exact H1|]. split; [exact H2|]. split; [exact (H5 "pw3")|].
  exact (Hnone eq_refl).
Defined.

Lemma valid_login_iff_witness :
  let a := Auth.stored [Sample.alice] 1 in
  exists b : bool,
    @Auth.valid_login Sample.bcrypt (VStr "a@x.com") "pw1" a = (Ok b, a)
    /\ (b = true <->
        exists u hashed,
          u ∈ DB.rows (Auth._db a)
          /\ User.email u = VStr "a@x.com"
          /\ User.hashed_password u = VStr hashed
          /\ @Auth.checkpw Sample.bcrypt "pw1" hashed = Some true).
Proof.
  apply (@valid_login_iff Sample.bcrypt (Auth.stored [Sample.alice] 1)
           "a@x.com" "pw1" eq_refl eq_refl eq_refl).
Defined.

Section RegisterFacts.
Context `{Auth.Bcrypt} `{Auth.Uuid}.

Implicit Types (a : Auth.t) (u : User.t).

(** What [register_user] does on a healthy store with unique emails. *)
Lemma register_user_run a (email : value) (password : string) :
  DB.healthy (Auth._db a) = true ->
  DB.emails_unique (DB.rows (Auth._db a)) = true ->
  let rs := DB.rows (Auth._db a) in
  let a' := Auth.mk (Auth._db a) (S (Auth.entropy a)) in
  let hashed := VStr (Auth.hashpw password (Auth.gensalt (Auth.entropy a))) in
  let user := User.mk (VInt (DB.next_rowid rs)) email hashed VNone VNone in
  Auth.register_user email password a =
  match DB.filter_by 0 [("email", email)] rs with
  | [] =>
      if negb (truthy email) || negb (truthy hashed) then (Ok None, a')
      else if DB.schema_ok (rs ++ [user])%list
      then (Ok (Some (length rs, user)),
            Auth.stored (rs ++ [user])%list (S (Auth.entropy a)))
      else (Raise IntegrityError,
            Auth.mk (DB.mk (rs ++ [user])%list (DB.committed (Auth._db a)) true)
              (S (Auth.entropy a)))
  | _ => (Raise ValueError, a)
  end.
Proof.
  intros Hh Hnd rs a' hashed user. subst rs a' hashed user.
  apply bool_decide_eq_true_1 in Hnd.
  destruct (healthy_inv _ Hh) as [Hr _].
  unfold Auth.register_user, try_except, bind.
  rewrite (auth_find _ _ Hh) by reflexivity.
  destruct (email_hits _ email Hnd) as [E|(i & u & E)]; rewrite E;
    [|reflexivity].
  simpl. unfold Auth.db, zoom, DB.add_user. simpl.
  destruct (negb (truthy email)
            || negb (negb (Auth.hashpw password (Auth.gensalt (Auth.entropy a)) =? EmptyString)%string));
    [reflexivity|].
  unfold bind, get, put. rewrite commit_spec by exact Hr. simpl.
  destruct (DB.schema_ok _); reflexivity.
Qed.

(** C7.  On a healthy store with unique emails: once [register_user] has
    created a record for an email, registering that email again raises
    [ValueError] and leaves the store exactly as the first call left it;
    the store holds exactly one record with that email, the one the first
    call created. *)
Theorem register_user_twice a (e password password' : string)
    (i : nat) (u : User.t) (a1 : Auth.t) :
  DB.healthy (Auth._db a) = true ->
  DB.emails_unique (DB.rows (Auth._db a)) = true ->
  Auth.register_user (VStr e) password a = (Ok (Some (i, u)), a1) ->
  Auth.register_user (VStr e) password' a1 = (Raise ValueError, a1)
  /\ DB.filter_by 0 [("email", VStr e)] (DB.rows (Auth._db a1)) = [(i, u)]
  /\ DB.rows (Auth._db a1) = (DB.rows (Auth._db a) ++ [u])%list
  /\ User.email u = VStr e.
Proof.
  intros Hh Hnd Hfirst.
  rewrite (register_user_run _ _ _ Hh Hnd) in Hfirst. cbv zeta in Hfirst.
  destruct (DB.filter_by 0 [("email", VStr e)] (DB.rows (Auth._db a)))
    as [|hit hits] eqn:E; [|destruct hit, hits; discriminate].
  destruct (negb (truthy (VStr e)) || _); [discriminate|].
  destruct (DB.schema_ok _) eqn:Hs'; [|discriminate].
  injection Hfirst as <- <- <-.
  assert (Hone : DB.filter_by 0 [("email", VStr e)]
                   (DB.rows (Auth._db a) ++
                    [User.mk (VInt (DB.next_rowid (DB.rows (Auth._db a)))) (VStr e)
                       (VStr (Auth.hashpw password (Auth.gensalt (Auth.entropy a))))
                       VNone VNone])%list
                 = [(length (DB.rows (Auth._db a)),
                     User.mk (VInt (DB.next_rowid (DB.rows (Auth._db a)))) (VStr e)
                       (VStr (Auth.hashpw password (Auth.gensalt (Auth.entropy a))))
                       VNone VNone)]).
  { rewrite filter_by_app, E. cbn [forallb]. unfold DB.criterion.
    rewrite bool_decide_eq_true_2 by reflexivity. reflexivity. }
  split; [|split; [exact Hone|split; reflexivity]].
  unfold Auth.register_user, try_except, bind.
  rewrite auth_find; [|apply stored_healthy; exact Hs'|reflexivity].
  simpl DB.rows. rewrite Hone. reflexivity.
Qed.

End RegisterFacts.

Lemma register_user_twice_witness :
  let first := @Auth.register_user Sample.bcrypt (VStr "a@x.com") "pw1" Auth.init in
  first.1 = Ok (Some (0%nat, Sample.alice))
  /\ @Auth.register_user Sample.bcrypt (VStr "a@x.com") "pw2" first.2
     = (Raise ValueError, first.2)
  /\ DB.rows (Auth._db first.2) = [Sample.alice].
Proof.
  destruct (@register_user_twice Sample.bcrypt Auth.init "a@x.com" "pw1" "pw2"
              0%nat Sample.alice (Auth.stored [Sample.alice] 1)
              eq_refl eq_refl eq_refl) as (H1 & _ & H3 & _).
  split; [reflexivity|]. split; [exact H1|exact H3].
Defined.

(** ** [get_reset_password_token] and the route that calls it *)

Section ResetFacts.
Context `{Auth.Bcrypt} `{Auth.Uuid}.

Implicit Types (a : Auth.t) (u : User.t).

(** The method never gets past its first statement. *)
Lemma get_reset_password_token_raises a (email : value) :
  Auth.get_reset_password_token email a = (Raise NameError, a).
Proof. reflexivity. Qed.

(** C10.  On a healthy store, [POST /reset_password] for an email that a
    record carries leaves the store as [create_session] leaves it: the
    record's [session_id] is the freshly drawn uuid, committed, whatever it
    held before; so the field has changed whenever the old value was not
    that uuid.  The request itself then ends in the [NameError] of
    [Auth.get_reset_password_token]. *)
Theorem reset_request_overwrites_session a (e : string) (i : nat) u :
  DB.healthy (Auth._db a) = true ->
  DB.filter_by 0 [("email", VStr e)] (DB.rows (Auth._db a)) = [(i, u)] ->
  let T := Auth.uuid4 (Auth.entropy a) in
  let out := app.get_reset_password_token (Some e) a in
  out.2 = (Auth.create_session (VStr e) a).2
  /\ DB.rows (Auth._db out.2) !! i = Some (User.setattr u "session_id" (VStr T))
  /\ DB.committed (Auth._db out.2) = DB.rows (Auth._db out.2)
  /\ (User.session_id u <> VStr T ->
      DB.rows (Auth._db out.2) !! i <> DB.rows (Auth._db a) !! i)
  /\ (T <> EmptyString -> out.1 = Raise NameError).
Proof.
  intros Hh Hone T out. subst T out.
  destruct (hit_lookup _ _ _ _ Hone) as [Hi _].
  unfold app.get_reset_password_token, bind. cbn [app.form_value].
  rewrite (create_session_found _ _ _ _ Hh Hone). cbn [fst snd].
  set (T := Auth.uuid4 (Auth.entropy a)).
  assert (Hrow : alter (fun u => User.setattr u "session_id" (VStr T)) i
                   (DB.rows (Auth._db a)) !! i
                 = Some (User.setattr u "session_id" (VStr T)))
    by (rewrite list_lookup_alter_eq, Hi; reflexivity).
  destruct (negb (truthy (VStr T))) eqn:Et; cbn [fst snd];
    rewrite ?get_reset_password_token_raises; cbn [fst snd].
  - split; [reflexivity|]. split; [exact Hrow|]. split; [reflexivity|]. split.
    + intros Hold. simpl. rewrite Hrow, Hi. intros Heq. injection Heq as Heq.
      apply Hold. rewrite <- Heq. reflexivity.
    + intros Hne. simpl in Et. apply negb_true_iff, negb_false_iff in Et.
      apply String.eqb_eq in Et. contradiction.
  - split; [reflexivity|]. split; [exact Hrow|]. split; [reflexivity|]. split.
    + intros Hold. simpl. rewrite Hrow, Hi. intros Heq. injection Heq as Heq.
      apply Hold. rewrite <- Heq. reflexivity.
    + reflexivity.
Qed.

End ResetFacts.

Lemma reset_request_overwrites_session_witness :
  let a := Auth.stored [Sample.alice_busy] 2 in
  let out := @app.get_reset_password_token Sample.uuid (Some "a@x.com") a in
  User.session_id <$> DB.rows (Auth._db a) = [VStr "sess-1"]
  /\ User.session_id <$> DB.rows (Auth._db out.2) = [VStr "uuid-2"]
  /\ DB.rows (Auth._db out.2) !! 0%nat <> DB.rows (Auth._db a) !! 0%nat
  /\ out.1 = Raise NameError.
Proof.
  destruct (@reset_request_overwrites_session Sample.uuid
              (Auth.stored [Sample.alice_busy] 2) "a@x.com" 0%nat Sample.alice_busy
              eq_refl eq_refl) as (_ & _ & _ & H4 & H5).
  split; [reflexivity|]. split; [reflexivity|]. split.
  - apply H4. discriminate.
  - apply H5. discriminate.
Defined.

(** C1.  [get_reset_password_token] for the registered email a@x.com: the
    call raises [NameError]; no token is returned, and the store, with the
    record's null [reset_token], is as before.  For an unknown email the
    outcome is the same [NameError], not [ValueError]. *)
Theorem get_reset_password_token_issues_nothing :
  let a := Auth.stored [Sample.alice] 1 in
  DB.filter_by 0 [("email", VStr "a@x.com")] (DB.rows (Auth._db a))
  = [(0%nat, Sample.alice)]
  /\ Auth.get_reset_password_token (VStr "a@x.com") a = (Raise NameError, a)
  /\ User.reset_token <$> DB.rows (Auth._db a) = [VNone]
  /\ Auth.get_reset_password_token (VStr "nobody@x.com") a = (Raise NameError, a).
Proof.
  repeat split; reflexivity.
Qed.

(** ** The class-level session map of [SessionAuth] *)

Section SessionAuthFacts.
Context `{Auth.Uuid}.

(** [create_session] files the new session id under the user id; a lookup
    by that session id finds nothing unless the same string was used as a
    user id before. *)
Lemma session_map_is_keyed_by_user (c : SessionAuth.t) (uid : string) :
  uid <> EmptyString ->
  let T := Auth.uuid4 (SessionAuth.entropy c) in
  let out := SessionAuth.create_session (VStr uid) c in
  out.1 = Ok (Some T)
  /\ SessionAuth.user_id_by_session_id out.2
     = <[uid := T]> (SessionAuth.user_id_by_session_id c)
  /\ (T <> EmptyString -> T <> uid -> SessionAuth.user_id_by_session_id c !! T = None ->
      SessionAuth.user_id_for_session_id (VStr T) out.2 = (Ok None, out.2)).
Proof.
  intros Hne T out. subst T out. unfold SessionAuth.create_session.
  assert (Et : negb (truthy (VStr uid)) = false).
  { simpl. apply negb_false_iff, negb_true_iff, String.eqb_neq. exact Hne. }
  rewrite Et. cbn [fst snd]. split; [reflexivity|]. split; [reflexivity|].
  intros HT Hdiff Hfree. unfold SessionAuth.user_id_for_session_id.
  assert (Et' : negb (truthy (VStr (Auth.uuid4 (SessionAuth.entropy c)))) = false).
  { simpl. apply negb_false_iff, negb_true_iff, String.eqb_neq. exact HT. }
  rewrite Et'. unfold bind, get, ret. cbn [SessionAuth.user_id_by_session_id].
  rewrite lookup_insert_ne by congruence. rewrite Hfree. reflexivity.
Qed.

End SessionAuthFacts.

(** C2.  On the class as defined, [create_session("u1")] returns the token
    uuid-0 and leaves the dictionary as [{"u1": "uuid-0"}];
    [user_id_for_session_id("uuid-0")] then returns [None], not "u1".  The
    dictionary is keyed by user id: looking up "u1" gives the token. *)
Theorem session_auth_lookup_misses :
  let out := @SessionAuth.create_session Sample.uuid (VStr "u1") SessionAuth.init in
  out.1 = Ok (Some "uuid-0")
  /\ SessionAuth.user_id_by_session_id out.2 = {[ "u1" := "uuid-0" ]}
  /\ (SessionAuth.user_id_for_session_id (VStr "uuid-0") out.2).1 = Ok None
  /\ (SessionAuth.user_id_for_session_id (VStr "u1") out.2).1 = Ok (Some "uuid-0").
Proof.
  destruct (@session_map_is_keyed_by_user Sample.uuid SessionAuth.init "u1")
    as (Hret & Hmap & Hmiss); [discriminate|].
  split; [exact Hret|]. split; [exact Hmap|]. split.
  - assert (Hm := Hmiss ltac:(vm_compute; discriminate)
                        ltac:(vm_compute; discriminate) eq_refl).
    exact (f_equal fst Hm).
  - unfold SessionAuth.user_id_for_session_id, bind, get, ret.
    cbn [negb truthy String.eqb Ascii.eqb Bool.eqb fst snd]. rewrite Hmap.
    rewrite lookup_insert_eq. reflexivity.
Qed.

(** ** What every reachable state satisfies *)

Section Reachability.
Context `{Auth.Bcrypt} `{Auth.Uuid}.

Implicit Types (a : Auth.t) (u : User.t) (rs : list User.t).

Lemma max_rowid_bound rs u (z : Z) :
  u ∈ rs -> User.id u = VInt z ->
  exists m, DB.max_rowid rs = Some m /\ z <= m.
Proof.
  induction rs as [|u0 rs IH]; intros Hin Hid; [inversion Hin|].
  apply elem_of_cons in Hin as [<-|Hin]; simpl.
  - rewrite Hid. destruct (DB.max_rowid rs) as [m|].
    + exists (Z.max z m). split; [reflexivity|lia].
    + exists z. split; [reflexivity|lia].
  - destruct (IH Hin Hid) as (m & -> & Hm).
    destruct (User.id u0) as [|z0|s0].
    + exists m. split; [reflexivity|exact Hm].
    + exists (Z.max z0 m). split; [reflexivity|lia].
    + exists m. split; [reflexivity|exact Hm].
Qed.

Lemma next_rowid_fresh rs : VInt (DB.next_rowid rs) ∉ User.id <$> rs.
Proof.
  intros Hin. apply list_elem_of_fmap in Hin as (u & Hid & Hu).
  destruct (max_rowid_bound rs u _ Hu (eq_sym Hid)) as (m & Hm & Hle).
  unfold DB.next_rowid in Hle. rewrite Hm in Hle. lia.
Qed.

Lemma truthy_not_none (v : value) : truthy v = true -> value_eqb v VNone = false.
Proof. destruct v; [discriminate|reflexivity|reflexivity]. Qed.

Lemma schema_ok_add rs (email hashed : value) :
  DB.schema_ok rs = true -> truthy email = true -> truthy hashed = true ->
  DB.schema_ok
    (rs ++ [User.mk (VInt (DB.next_rowid rs)) email hashed VNone VNone])%list = true.
Proof.
  unfold DB.schema_ok. intros Hs He Hp.
  apply andb_true_iff in Hs as [Hrows Hnd]. apply bool_decide_eq_true_1 in Hnd.
  apply andb_true_iff. split.
  - rewrite forallb_app, Hrows. simpl. unfold DB.row_ok. simpl.
    rewrite (truthy_not_none _ He), (truthy_not_none _ Hp). reflexivity.
  - apply bool_decide_eq_true_2. rewrite fmap_app. apply NoDup_app.
    split; [exact Hnd|]. split; [|apply NoDup_singleton].
    intros x Hx Hx'. simpl in Hx'. apply list_elem_of_singleton in Hx'. subst x.
    exact (next_rowid_fresh rs Hx).
Qed.

Lemma fmap_alter_same {B} (g : User.t -> B) (f : User.t -> User.t) i rs :
  (forall u, g (f u) = g u) -> g <$> alter f i rs = g <$> rs.
Proof.
  intros Hg. revert i. induction rs as [|u0 rs IH]; intros i; [reflexivity|].
  destruct i as [|i].
  - change (alter f 0%nat (u0 :: rs)) with (f u0 :: rs).
    rewrite !fmap_cons, Hg. reflexivity.
  - change (alter f (S i) (u0 :: rs)) with (u0 :: alter f i rs).
    rewrite !fmap_cons, IH. reflexivity.
Qed.

Lemma consistent_inv a :
  Auth.consistent a = true ->
  DB.healthy (Auth._db a) = true
  /\ DB.committed (Auth._db a) = DB.rows (Auth._db a)
  /\ DB.emails_unique (DB.rows (Auth._db a)) = true.
Proof.
  unfold Auth.consistent. intros Hc.
  apply andb_true_iff in Hc as [Hc He]. apply andb_true_iff in Hc as [Hh Hc].
  apply bool_decide_eq_true_1 in Hc. repeat split; assumption.
Qed.

Lemma consistent_stored rs n :
  DB.schema_ok rs = true -> DB.emails_unique rs = true ->
  Auth.consistent (Auth.stored rs n) = true.
Proof.
  intros Hs He. unfold Auth.consistent.
  rewrite (stored_healthy rs n Hs). cbn [Auth.stored Auth._db DB.rows DB.committed].
  rewrite He, bool_decide_eq_true_2; reflexivity.
Qed.

(** A change that keeps id and email and an acceptable row acceptable. *)
Lemma consistent_alter a (f : User.t -> User.t) i n :
  Auth.consistent a = true ->
  (forall u, User.id (f u) = User.id u) ->
  (forall u, User.email (f u) = User.email u) ->
  (forall u, DB.row_ok u = true -> DB.row_ok (f u) = true) ->
  Auth.consistent (Auth.stored (alter f i (DB.rows (Auth._db a))) n) = true.
Proof.
  intros Hc Hid Hem Hrow. destruct (consistent_inv _ Hc) as (Hh & _ & He).
  destruct (healthy_inv _ Hh) as [_ Hs].
  apply consistent_stored.
  - apply schema_ok_alter; assumption.
  - unfold DB.emails_unique in *. rewrite (fmap_alter_same User.email f i _ Hem).
    exact He.
Qed.

Lemma get_user_state a (session_id : value) :
  DB.healthy (Auth._db a) = true ->
  (Auth.get_user_from_session_id session_id a).2 = a.
Proof.
  intros Hh. unfold Auth.get_user_from_session_id.
  destruct (bool_decide (session_id = VNone)); [reflexivity|].
  unfold try_except, bind. rewrite (auth_find _ _ Hh) by reflexivity.
  destruct (DB.filter_by 0 [("session_id", session_id)] (DB.rows (Auth._db a)))
    as [|[i u] [|hit hits]]; reflexivity.
Qed.

(** Every method of [Auth] takes a consistent state to a consistent one. *)
Lemma consistent_after a (c : Auth.call) :
  Auth.consistent a = true -> Auth.consistent (Auth.after c a) = true.
Proof.
  intros Hc. destruct (consistent_inv _ Hc) as (Hh & Hcm & He).
  destruct (healthy_inv _ Hh) as [_ Hs].
  pose proof (bool_decide_eq_true_1 _ He) as Hnd.
  destruct c as [email password|email password|email|session_id|user_id|email
                |reset_token password]; unfold Auth.after.
  - (* register_user *)
    rewrite (register_user_run _ _ _ Hh He). cbv zeta.
    destruct (DB.filter_by 0 [("email", email)] (DB.rows (Auth._db a)))
      as [|hit hits] eqn:E; [|exact Hc].
    destruct (negb (truthy email) || _) eqn:Et; [exact Hc|].
    apply orb_false_iff in Et as [Et1 Et2].
    apply negb_false_iff in Et1, Et2.
    rewrite (schema_ok_add _ _ _ Hs Et1 Et2). cbn [snd].
    apply consistent_stored; [apply schema_ok_add; assumption|].
    unfold DB.emails_unique. apply bool_decide_eq_true_2.
    rewrite fmap_app. apply NoDup_app. split; [exact Hnd|].
    split; [|apply NoDup_singleton].
    intros x Hx Hx'. simpl in Hx'. apply list_elem_of_singleton in Hx'. subst x.
    apply list_elem_of_fmap in Hx as (u & Hue & Hu).
    pose proof (filter_by_none_inv _ _ _ _ E Hu) as Hm.
    assert (Hy : forallb (DB.criterion u) [("email", email)] = true)
      by (apply criterion_single; rewrite Hue; reflexivity).
    congruence.
  - (* valid_login *)
    rewrite (valid_login_run _ _ _ Hh).
    destruct (DB.filter_by 0 [("email", email)] (DB.rows (Auth._db a)))
      as [|[i u] [|hit hits]]; exact Hc.
  - (* create_session *)
    destruct (email_hits _ email Hnd) as [E|(i & u & E)].
    + rewrite (create_session_not_found _ _ Hh E). exact Hc.
    + rewrite (create_session_found _ _ _ _ Hh E). cbn [snd].
      apply consistent_alter; [exact Hc|reflexivity|reflexivity|].
      intros u' Hu'. exact Hu'.
  - (* get_user_from_session_id *)
    rewrite (get_user_state _ _ Hh). exact Hc.
  - (* destroy_session *)
    rewrite (destroy_session_run _ _ Hh).
    destruct (DB.filter_by 0 [("id", user_id)] (DB.rows (Auth._db a)))
      as [|[i u] [|hit hits]]; try exact Hc. cbn [snd].
    apply consistent_alter; [exact Hc|reflexivity|reflexivity|].
    intros u' Hu'. exact Hu'.
  - (* get_reset_password_token *)
    exact Hc.
  - (* update_password *)
    rewrite (update_password_run _ _ _ Hh).
    destruct (DB.filter_by 0 [("reset_token", reset_token)] (DB.rows (Auth._db a)))
      as [|[i u] [|hit hits]]; try exact Hc. cbn [snd].
    apply consistent_alter; [exact Hc|reflexivity|reflexivity|].
    intros u' Hu'. rewrite redeem_changes. unfold DB.row_ok in *. simpl.
    apply andb_true_iff in Hu' as [Hu' _]. rewrite Hu'. reflexivity.
Qed.

(** A fresh [Auth()] is consistent, and stays so through any sequence of
    calls: the hypotheses of the statements above hold in every state the
    service gets into. *)
Lemma reachable_consistent a : Auth.reachable a -> Auth.consistent a = true.
Proof.
  induction 1 as [|a c _ IH]; [reflexivity|].
  apply consistent_after. exact IH.
Qed.

End Reachability.

Section StoredHashes.
Context `{Auth.Bcrypt} `{Auth.Uuid}.

(** What bcrypt guarantees of its own hashes: [checkpw] compares against
    them without raising. *)
Hypothesis checkpw_reads_hashpw :
  forall password password' n,
    is_Some (Auth.checkpw password (Auth.hashpw password' (Auth.gensalt n))).

Lemma hashed_here_after (a : Auth.t) (c : Auth.call) :
  Auth.consistent a = true ->
  Forall Auth.hashed_here (DB.rows (Auth._db a)) ->
  Forall Auth.hashed_here (DB.rows (Auth._db (Auth.after c a))).
Proof.
  intros Hc Hall. destruct (consistent_inv _ Hc) as (Hh & Hcm & He).
  destruct (healthy_inv _ Hh) as [_ Hs].
  pose proof (bool_decide_eq_true_1 _ He) as Hnd.
  destruct c as [email password|email password|email|session_id|user_id|email
                |reset_token password]; unfold Auth.after.
  - rewrite (register_user_run _ _ _ Hh He). cbv zeta.
    destruct (DB.filter_by 0 [("email", email)] (DB.rows (Auth._db a)))
      as [|hit hits]; [|exact Hall].
    destruct (negb (truthy email) || _) eqn:Et; [exact Hall|].
    apply orb_false_iff in Et as [Et1 Et2]. apply negb_false_iff in Et1, Et2.
    rewrite (schema_ok_add _ _ _ Hs Et1 Et2).
    cbn [snd Auth._db Auth.stored DB.rows].
    apply Forall_app. split; [exact Hall|].
    apply Forall_singleton. eexists _, _. reflexivity.
  - rewrite (valid_login_run _ _ _ Hh).
    destruct (DB.filter_by 0 [("email", email)] (DB.rows (Auth._db a)))
      as [|[i u] [|hit hits]]; exact Hall.
  - destruct (email_hits _ email Hnd) as [E|(i & u & E)].
    + rewrite (create_session_not_found _ _ Hh E). exact Hall.
    + rewrite (create_session_found _ _ _ _ Hh E).
      cbn [snd Auth._db Auth.stored DB.rows].
      apply Forall_alter; [exact Hall|]. intros u' _ Hu'. exact Hu'.
  - rewrite (get_user_state _ _ Hh). exact Hall.
  - rewrite (destroy_session_run _ _ Hh).
    destruct (DB.filter_by 0 [("id", user_id)] (DB.rows (Auth._db a)))
      as [|[i u] [|hit hits]]; try exact Hall.
    cbn [snd Auth._db Auth.stored DB.rows].
    apply Forall_alter; [exact Hall|]. intros u' _ Hu'. exact Hu'.
  - exact Hall.
  - rewrite (update_password_run _ _ _ Hh).
    destruct (DB.filter_by 0 [("reset_token", reset_token)] (DB.rows (Auth._db a)))
      as [|[i u] [|hit hits]]; try exact Hall.
    cbn [snd Auth._db Auth.stored DB.rows].
    apply Forall_alter; [exact Hall|]. intros u' _ _.
    rewrite redeem_changes. eexists _, _; reflexivity.
Qed.

(** In every state the service gets into, each stored hash is one bcrypt
    made, so [checkpw] can read it. *)
Lemma reachable_checkable (a : Auth.t) (password : string) :
  Auth.reachable a -> Auth.checkable password (DB.rows (Auth._db a)) = true.
Proof.
  intros Hr.
  assert (Hall : Forall Auth.hashed_here (DB.rows (Auth._db a))).
  { induction Hr as [|a c Hr IH]; [constructor|].
    apply hashed_here_after; [apply reachable_consistent; exact Hr|exact IH]. }
  unfold Auth.checkable. apply forallb_forall. intros u Hu.
  rewrite Forall_forall in Hall.
  destruct (Hall u (proj2 (list_elem_of_In _ _) Hu)) as (p & n & ->).
  apply bool_decide_eq_true_2, checkpw_reads_hashpw.
Qed.

End StoredHashes.

(** The stand-in hasher reads its own hashes. *)
Lemma sample_checkpw_reads_hashpw (password password' : string) (n : nat) :
  is_Some (@Auth.checkpw Sample.bcrypt password
             (@Auth.hashpw Sample.bcrypt password' (@Auth.gensalt Sample.bcrypt n))).
Proof. simpl. eexists. reflexivity. Qed.

(** ** The lifecycle, run once

    register, log in with the right and a wrong password, open a session,
    resolve it, destroy it, resolve again. *)
Example lifecycle_scenario :
  let B := Sample.bcrypt in
  let U := Sample.uuid in
  let s1 := @Auth.register_user B (VStr "a@x.com") "pw1" Auth.init in
  let s2 := @Auth.create_session U (VStr "a@x.com") s1.2 in
  let s3 := Auth.destroy_session (VInt 1) s2.2 in
  (@Auth.valid_login B (VStr "a@x.com") "pw1" s1.2).1 = Ok true
  /\ (@Auth.valid_login B (VStr "a@x.com") "wrong" s1.2).1 = Ok false
  /\ s2.1 = Ok (Some "uuid-1")
  /\ (Auth.get_user_from_session_id (VStr "uuid-1") s2.2).1 = Ok (VStr "a@x.com")
  /\ s3.1 = Ok tt
  /\ (Auth.get_user_from_session_id (VStr "uuid-1") s3.2).1 = Ok VNone.
Proof. vm_compute. repeat split; reflexivity. Qed.

(** * Further properties *)

(** ** The store: lookups, insertion, updates *)

Section StoreLookups.

Implicit Types (db : DB.t) (rs : list User.t) (u : User.t)
  (kwargs : list (string * value)).

Lemma filter_by_complete n kwargs rs j u :
  rs !! j = Some u -> forallb (DB.criterion u) kwargs = true ->
  ((n + j)%nat, u) ∈ DB.filter_by n kwargs rs.
Proof.
  revert n j. induction rs as [|u0 rs IH]; intros n j Hj Hm; [discriminate|].
  destruct j as [|j]; simpl in Hj.
  - injection Hj as ->. simpl. rewrite Hm, Nat.add_0_r.
    apply elem_of_cons. left. reflexivity.
  - simpl. replace (n + S j)%nat with (S n + j)%nat by lia.
    destruct (forallb (DB.criterion u0) kwargs);
      [apply elem_of_cons; right|]; apply IH; assumption.
Qed.

Lemma filter_by_NoDup n kwargs rs : NoDup (DB.filter_by n kwargs rs).
Proof.
  revert n. induction rs as [|u0 rs IH]; intros n; simpl; [constructor|].
  destruct (forallb (DB.criterion u0) kwargs); [|apply IH].
  apply NoDup_cons. split; [|apply IH].
  intros Hin. apply filter_by_index in Hin as (i & Hi & _). lia.
Qed.

Lemma bad_criteria_iff kwargs :
  DB.bad_criteria kwargs = true <->
  kwargs = [] \/ exists k v, (k, v) ∈ kwargs /\ k ∉ DB.VALID_FIELDS.
Proof.
  unfold DB.bad_criteria. rewrite orb_true_iff, bool_decide_eq_true, existsb_exists.
  split; (intros [Hnil|Hbad]; [left; exact Hnil|right]).
  - destruct Hbad as ([k v] & Hin & Hk). exists k, v.
    apply list_elem_of_In in Hin. split; [exact Hin|].
    apply negb_true_iff, bool_decide_eq_false_1 in Hk. exact Hk.
  - destruct Hbad as (k & v & Hin & Hk). exists (k, v).
    split; [apply list_elem_of_In; exact Hin|].
    apply negb_true_iff, bool_decide_eq_false_2. exact Hk.
Qed.

(** X1.  [find_user_by] with no criterion at all, or with a criterion on a
    name outside [VALID_FIELDS], raises [InvalidRequestError] whatever the
    store holds, and does not touch the store. *)
Theorem find_user_by_rejects_criteria db kwargs :
  kwargs = [] \/ (exists k v, (k, v) ∈ kwargs /\ k ∉ DB.VALID_FIELDS) ->
  DB.find_user_by kwargs db = (Raise InvalidRequestError, db).
Proof.
  intros Hbad. apply bad_criteria_iff in Hbad.
  unfold DB.find_user_by. rewrite Hbad. reflexivity.
Qed.

Lemma find_user_by_rejects_criteria_witness :
  DB.find_user_by [] Sample.store = (Raise InvalidRequestError, Sample.store)
  /\ DB.find_user_by [("email", VStr "a@x.com"); ("name", VStr "alice")] Sample.store
     = (Raise InvalidRequestError, Sample.store).
Proof.
  split.
  - apply (find_user_by_rejects_criteria Sample.store []). left. reflexivity.
  - apply (find_user_by_rejects_criteria Sample.store
             [("email", VStr "a@x.com"); ("name", VStr "alice")]).
    right. exists "name", (VStr "alice"). split.
    + apply elem_of_cons. right. apply elem_of_cons. left. reflexivity.
    + intros Hin. assert (Hb := bool_decide_eq_true_2 _ Hin).
      vm_compute in Hb. discriminate.
Defined.

(** X2.  On a healthy store and with acceptable criteria, [find_user_by]
    never changes the store and returns the object at position [i] exactly
    when the row at [i] satisfies every criterion and no row at another
    position does.  A lookup that two rows satisfy, like one that no row
    satisfies, raises [NoResultFound]. *)
Theorem find_user_by_exactly_one db kwargs :
  DB.healthy db = true ->
  DB.bad_criteria kwargs = false ->
  let matches u := forallb (DB.criterion u) kwargs = true in
  (DB.find_user_by kwargs db).2 = db
  /\ (forall i u,
         (DB.find_user_by kwargs db).1 = Ok (i, u) <->
         DB.rows db !! i = Some u /\ matches u
         /\ forall j u', DB.rows db !! j = Some u' -> matches u' -> j = i)
  /\ ((forall i u, (DB.find_user_by kwargs db).1 <> Ok (i, u)) ->
      (DB.find_user_by kwargs db).1 = Raise NoResultFound).
Proof.
  intros Hh Hc matches. subst matches.
  rewrite (find_user_by_healthy _ _ Hh Hc). cbn [fst snd].
  split; [reflexivity|]. split.
  - intros i u. split.
    + destruct (DB.filter_by 0 kwargs (DB.rows db)) as [|hit [|hit' hits]] eqn:E;
        try discriminate.
      intros Hok. injection Hok as ->.
      destruct (hit_lookup _ _ _ _ E) as [Hi Hm].
      split; [exact Hi|]. split; [exact Hm|].
      intros j u' Hj Hm'.
      pose proof (filter_by_complete 0 _ _ _ _ Hj Hm') as Hin.
      rewrite E in Hin. apply list_elem_of_singleton in Hin.
      injection Hin as -> _. reflexivity.
    + intros (Hi & Hm & Huniq).
      pose proof (filter_by_complete 0 _ _ _ _ Hi Hm) as Hin.
      pose proof (filter_by_NoDup 0 kwargs (DB.rows db)) as Hnd.
      destruct (DB.filter_by 0 kwargs (DB.rows db)) as [|hit [|hit' hits]] eqn:E.
      * inversion Hin.
      * apply list_elem_of_singleton in Hin. subst hit. reflexivity.
      * exfalso.
        assert (Hall : forall h, h ∈ hit :: hit' :: hits -> h = (i, u)).
        { intros [j u'] Hh'. rewrite <- E in Hh'.
          apply filter_by_index in Hh' as (k & -> & Hk & Hm').
          pose proof (Huniq _ _ Hk Hm') as Hki. simpl in Hki. subst k.
          simpl. rewrite Hi in Hk. injection Hk as ->. reflexivity. }
        pose proof (Hall hit ltac:(apply elem_of_cons; left; reflexivity)) as H1.
        pose proof (Hall hit' ltac:(apply elem_of_cons; right;
                                    apply elem_of_cons; left; reflexivity)) as H2.
        subst hit hit'. apply NoDup_cons in Hnd as [Hnot _].
        apply Hnot. apply elem_of_cons. left. reflexivity.
  - intros Hnever.
    destruct (DB.filter_by 0 kwargs (DB.rows db)) as [|[i u] [|hit' hits]];
      try reflexivity.
    exfalso. exact (Hnever i u eq_refl).
Qed.

Lemma find_user_by_exactly_one_witness :
  DB.find_user_by [("email", VStr "a@x.com")] Sample.store
  = (Ok (0%nat, Sample.alice), Sample.store).
Proof.
  destruct (find_user_by_exactly_one Sample.store [("email", VStr "a@x.com")]
              eq_refl eq_refl) as (H2 & Hiff & _).
  apply injective_projections; [|exact H2].
  apply Hiff. split; [reflexivity|]. split; [reflexivity|].
  intros [|j] u' Hj _; [reflexivity|discriminate].
Defined.

(** X3.  [add_user] with an email or a hash that is [None] or empty returns
    [None] and adds nothing, whatever the store holds. *)
Theorem add_user_refuses_empty db (email hashed_password : value) :
  truthy email = false \/ truthy hashed_password = false ->
  DB.add_user email hashed_password db = (Ok None, db).
Proof.
  intros Hfalsy. unfold DB.add_user.
  assert (E : negb (truthy email) || negb (truthy hashed_password) = true).
  { destruct Hfalsy as [-> | ->]; [reflexivity|apply orb_true_r]. }
  rewrite E. reflexivity.
Qed.

Lemma add_user_refuses_empty_witness :
  DB.add_user (VStr EmptyString) (VStr "spw") Sample.store = (Ok None, Sample.store)
  /\ DB.add_user (VStr "b@x.com") VNone Sample.store = (Ok None, Sample.store).
Proof.
  split.
  - apply add_user_refuses_empty. left. reflexivity.
  - apply add_user_refuses_empty. right. reflexivity.
Defined.

End StoreLookups.

Section StoreWrites.

Implicit Types (db : DB.t) (rs : list User.t) (u : User.t)
  (kwargs : list (string * value)).



(** X5.  On a healthy store, [update_user] for an id that no row carries
    raises [NoResultFound] and changes nothing; the lookup comes before the
    keys are looked at, so this holds for invalid keys as well. *)
Theorem update_user_unknown_id db (user_id : value) kwargs :
  DB.healthy db = true ->
  (forall u, u ∈ DB.rows db -> User.id u <> user_id) ->
  DB.update_user user_id kwargs db = (Raise NoResultFound, db).
Proof.
  intros Hh Hnone. unfold DB.update_user, bind.
  rewrite find_user_by_healthy by first [exact Hh | reflexivity].
  rewrite filter_by_none; [reflexivity|].
  intros u Hu. cbn [forallb]. rewrite andb_true_r. unfold DB.criterion.
  apply bool_decide_eq_false_2. intros Heq. injection Heq as Heq.
  exact (Hnone u Hu Heq).
Qed.

Lemma update_user_unknown_id_witness :
  DB.update_user (VInt 7) [("is_admin", VInt 1)] Sample.store
  = (Raise NoResultFound, Sample.store).
Proof.
  apply (update_user_unknown_id Sample.store (VInt 7) [("is_admin", VInt 1)] eq_refl).
  intros u Hu. apply list_elem_of_singleton in Hu. subst u. discriminate.
Defined.

(** X6.  What a rejected update has set is not taken back.  After
    [update_user] has raised [ValueError] on an invalid key, the changes it
    set before that key stay in the session, uncommitted; the next
    [update_user] for the same user that succeeds commits them together
    with its own. *)
Theorem rejected_update_committed_later db i u
    (kwargs kwargs' : list (string * value)) :
  DB.healthy db = true ->
  DB.rows db !! i = Some u ->
  DB.all_valid kwargs = false ->
  DB.all_valid kwargs' = true ->
  let left_behind u := DB.apply_changes u (DB.checked_prefix kwargs) in
  User.id (left_behind u) = User.id u ->
  DB.schema_ok (alter left_behind i (DB.rows db)) = true ->
  DB.schema_ok
    (alter (fun u => DB.apply_changes (left_behind u) kwargs') i (DB.rows db)) = true ->
  let out := DB.update_user (User.id u) kwargs db in
  let out' := DB.update_user (User.id u) kwargs' out.2 in
  out.1 = Raise ValueError
  /\ DB.committed out.2 = DB.committed db
  /\ out'.1 = Ok tt
  /\ DB.committed out'.2 !! i = Some (DB.apply_changes (left_behind u) kwargs').
Proof.
  intros Hh Hi Hv Hv' left_behind Hid Hs1 Hs2 out out'. subst out out'.
  destruct (healthy_inv _ Hh) as [Hr _].
  rewrite (update_user_spec _ _ _ _ Hh Hi), Hv. cbn [fst snd].
  split; [reflexivity|]. split; [reflexivity|].
  assert (Hh1 : DB.healthy (DB.touch i left_behind db) = true).
  { unfold DB.healthy, DB.touch. simpl. rewrite Hr, Hs1. reflexivity. }
  assert (Hi1 : DB.rows (DB.touch i left_behind db) !! i = Some (left_behind u)).
  { unfold DB.touch. simpl. rewrite list_lookup_alter_eq, Hi. reflexivity. }
  assert (Hrows : DB.rows (DB.touch i (fun u0 => DB.apply_changes u0 kwargs')
                             (DB.touch i left_behind db))
                  = alter (fun u => DB.apply_changes (left_behind u) kwargs') i
                      (DB.rows db)).
  { unfold DB.touch. simpl. rewrite list_alter_alter_eq. reflexivity. }
  rewrite <- Hid.
  rewrite (update_user_spec _ _ _ _ Hh1 Hi1), Hv'.
  rewrite commit_spec by (unfold DB.touch; simpl; exact Hr).
  rewrite Hrows, Hs2. cbn [fst snd DB.committed]. split; [reflexivity|].
  rewrite list_lookup_alter_eq, Hi. reflexivity.
Qed.

Lemma rejected_update_committed_later_witness :
  let out := DB.update_user (VInt 1)
               [("email", VStr "new@x.com"); ("is_admin", VInt 1)] Sample.store in
  let out' := DB.update_user (VInt 1) [("session_id", VStr "s")] out.2 in
  out.1 = Raise ValueError
  /\ DB.committed out.2 = [Sample.alice]
  /\ out'.1 = Ok tt
  /\ DB.committed out'.2 !! 0%nat
     = Some (User.mk (VInt 1) (VStr "new@x.com") (VStr "spw1") (VStr "s") VNone).
Proof.
  exact (rejected_update_committed_later Sample.store 0 Sample.alice
           [("email", VStr "new@x.com"); ("is_admin", VInt 1)]
           [("session_id", VStr "s")]
           eq_refl eq_refl eq_refl eq_refl eq_refl eq_refl eq_refl).
Defined.

End StoreWrites.

(** ** The [Auth] methods, one after another *)

Section AuthSequences.
Context `{Auth.Bcrypt} `{Auth.Uuid}.

Implicit Types (a : Auth.t) (u : User.t) (rs : list User.t).

(** What [get_user_from_session_id] does with a string on a healthy store. *)
Lemma get_user_run a (s : string) :
  DB.healthy (Auth._db a) = true ->
  Auth.get_user_from_session_id (VStr s) a =
  (match DB.filter_by 0 [("session_id", VStr s)] (DB.rows (Auth._db a)) with
   | [(i, u)] => Ok (User.email u)
   | _ => Ok VNone
   end, a).
Proof.
  intros Hh. unfold Auth.get_user_from_session_id.
  rewrite bool_decide_eq_false_2 by discriminate.
  unfold try_except, bind. rewrite (auth_find _ _ Hh) by reflexivity.
  destruct (DB.filter_by 0 [("session_id", VStr s)] (DB.rows (Auth._db a)))
    as [|[i u] [|hit hits]]; reflexivity.
Qed.

(** A change of one row that keeps what a criterion looks at keeps the
    hits of that criterion, up to the change itself. *)
Lemma filter_by_alter_same n (kwargs : list (string * value)) rs i
    (f : User.t -> User.t) :
  (forall u, forallb (DB.criterion (f u)) kwargs = forallb (DB.criterion u) kwargs) ->
  DB.filter_by n kwargs (alter f i rs)
  = (fun hit => (hit.1, if bool_decide (hit.1 = (n + i)%nat) then f hit.2 else hit.2))
      <$> DB.filter_by n kwargs rs.
Proof.
  intros Hsame. revert n i. induction rs as [|u0 rs IH]; intros n i; [reflexivity|].
  assert (Hrest : forall m, (fun hit : nat * User.t =>
              (hit.1, if bool_decide (hit.1 = m) then f hit.2 else hit.2))
            <$> DB.filter_by (S m) kwargs rs = DB.filter_by (S m) kwargs rs).
  { intros m. rewrite <- (list_fmap_id (DB.filter_by (S m) kwargs rs)) at 2.
    apply list_fmap_ext. intros pos [j u'] Hin.
    apply list_elem_of_lookup_2, filter_by_index in Hin as (k & Hk & _).
    simpl. rewrite bool_decide_eq_false_2 by lia. reflexivity. }
  destruct i as [|i].
  - change (alter f 0%nat (u0 :: rs)) with (f u0 :: rs). simpl.
    rewrite Hsame, Nat.add_0_r.
    destruct (forallb (DB.criterion u0) kwargs); simpl.
    + rewrite bool_decide_eq_true_2 by reflexivity. rewrite Hrest. reflexivity.
    + rewrite Hrest. reflexivity.
  - change (alter f (S i) (u0 :: rs)) with (u0 :: alter f i rs). simpl.
    rewrite IH. replace (S n + i)%nat with (n + S i)%nat by lia.
    destruct (forallb (DB.criterion u0) kwargs); simpl; [|reflexivity].
    rewrite bool_decide_eq_false_2 by lia. reflexivity.
Qed.


(** X8.  On a consistent store, after [register_user] has created the
    record of an email, [valid_login] for that email answers what [checkpw]
    says of the offered password against the hash made at registration, and
    leaves the store alone. *)
Theorem login_after_register a (e password : string) i u a1 :
  Auth.consistent a = true ->
  Auth.register_user (VStr e) password a = (Ok (Some (i, u)), a1) ->
  forall offered : string,
    Auth.valid_login (VStr e) offered a1 =
    (match Auth.checkpw offered
             (Auth.hashpw password (Auth.gensalt (Auth.entropy a))) with
     | Some b => Ok b
     | None => Raise ValueError
     end, a1).
Proof.
  intros Hc Hreg offered. destruct (consistent_inv _ Hc) as (Hh & _ & He).
  rewrite (register_user_run _ _ _ Hh He) in Hreg. cbv zeta in Hreg.
  destruct (DB.filter_by 0 [("email", VStr e)] (DB.rows (Auth._db a)))
    as [|hit hits] eqn:E; [|destruct hit, hits; discriminate].
  destruct (negb (truthy (VStr e)) || _); [discriminate|].
  destruct (DB.schema_ok _) eqn:Hs'; [|discriminate].
  injection Hreg as <- <- <-.
  rewrite valid_login_run by (apply stored_healthy; exact Hs').
  cbn [Auth.stored Auth._db DB.rows].
  rewrite filter_by_app, E. cbn [forallb]. unfold DB.criterion.
  rewrite bool_decide_eq_true_2 by reflexivity. reflexivity.
Qed.

End AuthSequences.


Lemma login_after_register_witness :
  let out := @Auth.register_user Sample.bcrypt (VStr "a@x.com") "pw1" Auth.init in
  @Auth.valid_login Sample.bcrypt (VStr "a@x.com") "pw1" out.2 = (Ok true, out.2)
  /\ @Auth.valid_login Sample.bcrypt (VStr "a@x.com") "pw2" out.2 = (Ok false, out.2).
Proof.
  pose proof (@login_after_register Sample.bcrypt Auth.init "a@x.com" "pw1"
                0%nat Sample.alice (Auth.stored [Sample.alice] 1) eq_refl eq_refl)
    as Hlogin.
  split; [exact (Hlogin "pw1")|exact (Hlogin "pw2")].
Defined.

Section SessionSequences.
Context `{Auth.Bcrypt} `{Auth.Uuid}.

Implicit Types (a : Auth.t) (u : User.t) (rs : list User.t).

(** A change of a row that did not match and still does not match leaves
    the hits as they were. *)
Lemma filter_by_alter_other n (kwargs : list (string * value)) rs i
    (f : User.t -> User.t) :
  (forall u, rs !! i = Some u ->
             forallb (DB.criterion u) kwargs = false
             /\ forallb (DB.criterion (f u)) kwargs = false) ->
  DB.filter_by n kwargs (alter f i rs) = DB.filter_by n kwargs rs.
Proof.
  revert n i. induction rs as [|u0 rs IH]; intros n i Hno; [reflexivity|].
  destruct i as [|i].
  - change (alter f 0%nat (u0 :: rs)) with (f u0 :: rs). simpl.
    destruct (Hno u0 eq_refl) as [-> ->]. reflexivity.
  - change (alter f (S i) (u0 :: rs)) with (u0 :: alter f i rs). simpl.
    rewrite (IH (S n) i) by (intros u Hu; apply Hno; exact Hu). reflexivity.
Qed.

Lemma session_criterion_set u (T T' : value) :
  forallb (DB.criterion (User.setattr u "session_id" T)) [("session_id", T')]
  = bool_decide (T = T').
Proof.
  cbn [forallb]. rewrite andb_true_r. unfold DB.criterion.
  change (User.getattr (User.setattr u "session_id" T) ("session_id", T').1)
    with (Some T).
  cbn [snd]. apply bool_decide_ext. split; [intros Heq; injection Heq as ->|intros ->];
    reflexivity.
Qed.

(** The hit of a lookup that some row at another position owns is not the
    row at [i]: that row does not match. *)
Lemma not_the_hit (kwargs : list (string * value)) rs i u j u' :
  DB.filter_by 0 kwargs rs = [(j, u')] -> j <> i -> rs !! i = Some u ->
  forallb (DB.criterion u) kwargs = false.
Proof.
  intros Hone Hne Hi. destruct (forallb (DB.criterion u) kwargs) eqn:E; [|reflexivity].
  pose proof (filter_by_complete 0 _ _ _ _ Hi E) as Hin.
  rewrite Hone in Hin. apply list_elem_of_singleton in Hin.
  injection Hin as Hij _. simpl in Hij. congruence.
Qed.

(** What [create_session] does on a healthy store. *)
Lemma create_session_run a (email : value) :
  DB.healthy (Auth._db a) = true ->
  Auth.create_session email a =
  match DB.filter_by 0 [("email", email)] (DB.rows (Auth._db a)) with
  | [(i, u)] =>
      (Ok (Some (Auth.uuid4 (Auth.entropy a))),
       Auth.stored
         (alter (fun u => User.setattr u "session_id"
                            (VStr (Auth.uuid4 (Auth.entropy a))))
            i (DB.rows (Auth._db a)))
         (S (Auth.entropy a)))
  | _ => (Ok None, a)
  end.
Proof.
  intros Hh.
  destruct (DB.filter_by 0 [("email", email)] (DB.rows (Auth._db a)))
    as [|[i u] [|hit hits]] eqn:E.
  - apply create_session_not_found; assumption.
  - apply (create_session_found _ _ i u); assumption.
  - unfold Auth.create_session, try_except, bind.
    rewrite (auth_find _ _ Hh) by reflexivity. rewrite E. reflexivity.
Qed.

(** X9.  One live session per user.  On a healthy store, for an email that
    one record carries and two distinct, unused uuids drawn in a row: after
    [create_session] has been called twice, the first token no longer
    resolves and the second resolves to the user. *)
Theorem create_session_replaces_token a (e : string) i u :
  DB.healthy (Auth._db a) = true ->
  let rs := DB.rows (Auth._db a) in
  let T1 := Auth.uuid4 (Auth.entropy a) in
  let T2 := Auth.uuid4 (S (Auth.entropy a)) in
  DB.filter_by 0 [("email", VStr e)] rs = [(i, u)] ->
  DB.filter_by 0 [("session_id", VStr T1)] rs = [] ->
  DB.filter_by 0 [("session_id", VStr T2)] rs = [] ->
  T1 <> T2 ->
  let a1 := (Auth.create_session (VStr e) a).2 in
  let out := Auth.create_session (VStr e) a1 in
  (Auth.get_user_from_session_id (VStr T1) a1).1 = Ok (VStr e)
  /\ out.1 = Ok (Some T2)
  /\ (Auth.get_user_from_session_id (VStr T1) out.2).1 = Ok VNone
  /\ (Auth.get_user_from_session_id (VStr T2) out.2).1 = Ok (VStr e).
Proof.
  intros Hh rs T1 T2 Hone Hf1 Hf2 Hne a1 out. subst rs a1 out.
  destruct (hit_lookup _ _ _ _ Hone) as [Hi Hm].
  apply criterion_single in Hm. injection Hm as Hemail.
  destruct (healthy_inv _ Hh) as [_ Hs].
  rewrite (create_session_found _ _ _ _ Hh Hone). cbn [snd]. fold T1.
  set (f1 := fun u => User.setattr u "session_id" (VStr T1)).
  assert (Hh1 : DB.healthy (Auth._db (Auth.stored (alter f1 i (DB.rows (Auth._db a)))
                                        (S (Auth.entropy a)))) = true)
    by (apply stored_healthy, set_session_schema, Hs).
  assert (Hone1 : DB.filter_by 0 [("email", VStr e)] (alter f1 i (DB.rows (Auth._db a)))
                  = [(i, f1 u)]).
  { rewrite filter_by_alter_same by (intros u0; reflexivity).
    rewrite Hone. simpl. rewrite bool_decide_eq_true_2 by reflexivity. reflexivity. }
  split.
  { rewrite (get_user_found _ T1 i (f1 u) Hh1);
      [cbn [fst]; f_equal; exact Hemail|].
    apply (filter_by_alter_new 0 _ _ i u f1 Hf1 Hi).
    unfold f1. rewrite session_criterion_set. apply bool_decide_eq_true_2. reflexivity. }
  rewrite (create_session_found _ _ i (f1 u) Hh1 Hone1).
  cbn [fst snd Auth.stored Auth.entropy Auth._db DB.rows]. fold T2.
  set (f2 := fun u => User.setattr u "session_id" (VStr T2)).
  assert (Hrows : alter f2 i (alter f1 i (DB.rows (Auth._db a)))
                  = alter f2 i (DB.rows (Auth._db a))).
  { rewrite list_alter_alter_eq. apply list_alter_ext; [|reflexivity].
    intros u0 _. reflexivity. }
  rewrite Hrows.
  assert (Hh2 : DB.healthy (Auth._db (Auth.stored (alter f2 i (DB.rows (Auth._db a)))
                                        (S (S (Auth.entropy a))))) = true)
    by (apply stored_healthy, set_session_schema, Hs).
  split; [reflexivity|]. split.
  - rewrite (get_user_not_found _ T1 Hh2); [reflexivity|].
    cbn [Auth.stored Auth._db DB.rows].
    rewrite filter_by_alter_other; [exact Hf1|].
    intros u0 Hu0. split.
    + eapply filter_by_none_inv; [exact Hf1|].
      eapply list_elem_of_lookup_2; exact Hu0.
    + unfold f2. rewrite session_criterion_set. apply bool_decide_eq_false_2.
      intros Heq. injection Heq as Heq. congruence.
  - rewrite (get_user_found _ T2 i (f2 u) Hh2);
      [cbn [fst]; f_equal; exact Hemail|].
    apply (filter_by_alter_new 0 _ _ i u f2 Hf2 Hi).
    unfold f2. rewrite session_criterion_set. apply bool_decide_eq_true_2. reflexivity.
Qed.

(** X10.  On a healthy store, [create_session] for one user leaves the
    session of every other user valid: a token that resolved to a record
    with another email resolves to it afterwards as well. *)
Theorem create_session_keeps_others a (e T' : string) j u' :
  DB.healthy (Auth._db a) = true ->
  DB.filter_by 0 [("session_id", VStr T')] (DB.rows (Auth._db a)) = [(j, u')] ->
  User.email u' <> VStr e ->
  T' <> Auth.uuid4 (Auth.entropy a) ->
  let a1 := (Auth.create_session (VStr e) a).2 in
  Auth.get_user_from_session_id (VStr T') a1 = (Ok (User.email u'), a1).
Proof.
  intros Hh Hone' Hother Hne a1. subst a1.
  destruct (healthy_inv _ Hh) as [_ Hs].
  pose proof (get_user_found _ _ _ _ Hh Hone') as Hbefore.
  rewrite (create_session_run _ _ Hh).
  destruct (DB.filter_by 0 [("email", VStr e)] (DB.rows (Auth._db a)))
    as [|[i u] [|hit hits]] eqn:E; cbn [snd]; try exact Hbefore.
  destruct (hit_lookup _ _ _ _ E) as [Hi Hm].
  apply criterion_single in Hm. injection Hm as Hemail.
  destruct (hit_lookup _ _ _ _ Hone') as [Hj _].
  assert (Hij : j <> i).
  { intros ->. rewrite Hi in Hj. injection Hj as ->. congruence. }
  apply (get_user_found _ _ j u'); [apply stored_healthy, set_session_schema, Hs|].
  cbn [Auth.stored Auth._db DB.rows].
  rewrite filter_by_alter_other; [exact Hone'|].
  intros u0 Hu0. rewrite Hi in Hu0. injection Hu0 as <-. split.
  - eapply not_the_hit; eassumption.
  - rewrite session_criterion_set. apply bool_decide_eq_false_2.
    intros Heq. injection Heq as Heq. congruence.
Qed.

(** X11.  On a healthy store, [destroy_session] for one user id leaves the
    session of every other user valid. *)
Theorem destroy_session_keeps_others a (user_id : value) (T' : string) j u' :
  DB.healthy (Auth._db a) = true ->
  DB.filter_by 0 [("session_id", VStr T')] (DB.rows (Auth._db a)) = [(j, u')] ->
  User.id u' <> user_id ->
  let a1 := (Auth.destroy_session user_id a).2 in
  Auth.get_user_from_session_id (VStr T') a1 = (Ok (User.email u'), a1).
Proof.
  intros Hh Hone' Hother a1. subst a1.
  destruct (healthy_inv _ Hh) as [_ Hs].
  pose proof (get_user_found _ _ _ _ Hh Hone') as Hbefore.
  rewrite (destroy_session_run _ _ Hh).
  destruct (DB.filter_by 0 [("id", user_id)] (DB.rows (Auth._db a)))
    as [|[i u] [|hit hits]] eqn:E; cbn [snd]; try exact Hbefore.
  destruct (hit_lookup _ _ _ _ E) as [Hi Hm].
  apply criterion_single in Hm. injection Hm as Hid.
  destruct (hit_lookup _ _ _ _ Hone') as [Hj _].
  assert (Hij : j <> i).
  { intros ->. rewrite Hi in Hj. injection Hj as ->. congruence. }
  apply (get_user_found _ _ j u'); [apply stored_healthy, set_session_schema, Hs|].
  cbn [Auth.stored Auth._db DB.rows].
  rewrite filter_by_alter_other; [exact Hone'|].
  intros u0 Hu0. rewrite Hi in Hu0. injection Hu0 as <-. split.
  - eapply not_the_hit; eassumption.
  - rewrite session_criterion_set. apply bool_decide_eq_false_2. discriminate.
Qed.

End SessionSequences.

Lemma create_session_replaces_token_witness :
  let a := Auth.stored [Sample.alice] 1 in
  let a1 := (@Auth.create_session Sample.uuid (VStr "a@x.com") a).2 in
  let out := @Auth.create_session Sample.uuid (VStr "a@x.com") a1 in
  (Auth.get_user_from_session_id (VStr "uuid-1") a1).1 = Ok (VStr "a@x.com")
  /\ out.1 = Ok (Some "uuid-2")
  /\ (Auth.get_user_from_session_id (VStr "uuid-1") out.2).1 = Ok VNone
  /\ (Auth.get_user_from_session_id (VStr "uuid-2") out.2).1 = Ok (VStr "a@x.com").
Proof.
  exact (@create_session_replaces_token Sample.uuid (Auth.stored [Sample.alice] 1)
           "a@x.com" 0%nat Sample.alice eq_refl eq_refl eq_refl eq_refl
           ltac:(vm_compute; discriminate)).
Defined.

Lemma create_session_keeps_others_witness :
  let bob := User.mk (VInt 2) (VStr "b@x.com") (VStr "spw2") (VStr "sess-2") VNone in
  let a := Auth.stored [Sample.alice_busy; bob] 2 in
  let a1 := (@Auth.create_session Sample.uuid (VStr "a@x.com") a).2 in
  User.session_id <$> DB.rows (Auth._db a1) = [VStr "uuid-2"; VStr "sess-2"]
  /\ Auth.get_user_from_session_id (VStr "sess-2") a1 = (Ok (VStr "b@x.com"), a1).
Proof.
  split; [reflexivity|].
  exact (@create_session_keeps_others Sample.uuid
           (Auth.stored
              [Sample.alice_busy;
               User.mk (VInt 2) (VStr "b@x.com") (VStr "spw2") (VStr "sess-2") VNone] 2)
           "a@x.com" "sess-2" 1%nat
           (User.mk (VInt 2) (VStr "b@x.com") (VStr "spw2") (VStr "sess-2") VNone)
           eq_refl eq_refl ltac:(discriminate) ltac:(vm_compute; discriminate)).
Defined.

Lemma destroy_session_keeps_others_witness :
  let bob := User.mk (VInt 2) (VStr "b@x.com") (VStr "spw2") (VStr "sess-2") VNone in
  let a := Auth.stored [Sample.alice_busy; bob] 2 in
  let a1 := (Auth.destroy_session (VInt 1) a).2 in
  User.session_id <$> DB.rows (Auth._db a1) = [VNone; VStr "sess-2"]
  /\ Auth.get_user_from_session_id (VStr "sess-2") a1 = (Ok (VStr "b@x.com"), a1).
Proof.
  split; [reflexivity|].
  exact (destroy_session_keeps_others
           (Auth.stored
              [Sample.alice_busy;
               User.mk (VInt 2) (VStr "b@x.com") (VStr "spw2") (VStr "sess-2") VNone] 2)
           (VInt 1) "sess-2" 1%nat
           (User.mk (VInt 2) (VStr "b@x.com") (VStr "spw2") (VStr "sess-2") VNone)
           eq_refl eq_refl ltac:(discriminate)).
Defined.

Section ResetSequences.
Context `{Auth.Bcrypt} `{Auth.Uuid}.

Implicit Types (a : Auth.t) (u : User.t) (rs : list User.t).

(** X12.  On a healthy store with unique emails, once [update_password] has
    redeemed a user's reset token, [valid_login] for that user's email
    answers what [checkpw] says of the offered password against the hash of
    the new password; the old hash plays no part any more. *)
Theorem login_after_reset a (T e password : string) i u :
  DB.healthy (Auth._db a) = true ->
  DB.emails_unique (DB.rows (Auth._db a)) = true ->
  DB.filter_by 0 [("reset_token", VStr T)] (DB.rows (Auth._db a)) = [(i, u)] ->
  User.email u = VStr e ->
  let a1 := (Auth.update_password (VStr T) password a).2 in
  forall offered : string,
    Auth.valid_login (VStr e) offered a1 =
    (match Auth.checkpw offered
             (Auth.hashpw password (Auth.gensalt (Auth.entropy a))) with
     | Some b => Ok b
     | None => Raise ValueError
     end, a1).
Proof.
  intros Hh He Hone Hemail a1 offered. subst a1.
  apply bool_decide_eq_true_1 in He.
  destruct (healthy_inv _ Hh) as [_ Hs].
  destruct (hit_lookup _ _ _ _ Hone) as [Hi _].
  rewrite (update_password_run _ _ _ Hh), Hone. cbn [snd].
  rewrite valid_login_run by (apply stored_healthy, redeem_schema, Hs).
  cbn [Auth.stored Auth._db DB.rows].
  rewrite filter_by_alter_same by (intros u0; reflexivity).
  rewrite <- Hemail, (hit_by_email _ _ _ He Hi). simpl.
  rewrite bool_decide_eq_true_2 by reflexivity. reflexivity.
Qed.

(** X13.  A password reset does not end a session.  On a healthy store,
    after [update_password] has redeemed a reset token, every session token
    resolves exactly as it did before. *)
Theorem reset_keeps_sessions a (T password : string) i u :
  DB.healthy (Auth._db a) = true ->
  DB.filter_by 0 [("reset_token", VStr T)] (DB.rows (Auth._db a)) = [(i, u)] ->
  let a1 := (Auth.update_password (VStr T) password a).2 in
  forall S : string,
    (Auth.get_user_from_session_id (VStr S) a1).1
    = (Auth.get_user_from_session_id (VStr S) a).1.
Proof.
  intros Hh Hone a1 S. subst a1.
  destruct (healthy_inv _ Hh) as [_ Hs].
  rewrite (update_password_run _ _ _ Hh), Hone. cbn [snd].
  rewrite (get_user_run _ _ Hh).
  rewrite get_user_run by (apply stored_healthy, redeem_schema, Hs).
  cbn [fst Auth.stored Auth._db DB.rows].
  rewrite filter_by_alter_same by (intros u0; reflexivity).
  destruct (DB.filter_by 0 [("session_id", VStr S)] (DB.rows (Auth._db a)))
    as [|[j u'] [|hit hits]]; try reflexivity.
  simpl. destruct (bool_decide (j = i)); reflexivity.
Qed.

(** X14.  A missing reset token is not turned away.
    [get_user_from_session_id] returns early on [None]; [update_password]
    does not, and a lookup by [reset_token=None] finds the users who have no
    reset pending.  On a healthy store where exactly one record has a null
    reset token, [PUT /reset_password] without a [reset_token] field answers
    200 and sets that record's password to the one sent. *)
Theorem reset_without_token a (form_email : option string) (password : string) i u :
  DB.healthy (Auth._db a) = true ->
  DB.filter_by 0 [("reset_token", VNone)] (DB.rows (Auth._db a)) = [(i, u)] ->
  let out := app_routes.update_password form_email None (Some password) a in
  out.1 = Ok (app_routes.Reply 200
                [("email", app.fstring form_email); ("message", "Password updated")] [])
  /\ out.2 = (Auth.update_password VNone password a).2
  /\ DB.committed (Auth._db out.2) !! i
     = Some (User.mk (User.id u) (User.email u)
               (VStr (Auth.hashpw password (Auth.gensalt (Auth.entropy a))))
               (User.session_id u) VNone).
Proof.
  intros Hh Hone out. subst out.
  destruct (hit_lookup _ _ _ _ Hone) as [Hi _].
  unfold app_routes.update_password, app_routes.update_password_call,
    try_except_any, bind.
  cbn [app.form_value].
  rewrite (update_password_run _ _ _ Hh), Hone. unfold ret. cbn [fst snd].
  split; [reflexivity|]. split; [reflexivity|].
  cbn [Auth.stored Auth._db DB.committed].
  rewrite list_lookup_alter_eq, Hi. reflexivity.
Qed.

(** X15.  No method of [Auth] rewrites an identity.  On a consistent
    store, after any one call the id and the email of every record that was
    there are what they were, in the same order; at most one record has been
    added, and none removed. *)
Theorem auth_keeps_identities a (c : Auth.call) :
  Auth.consistent a = true ->
  let ident u := (User.id u, User.email u) in
  exists added,
    ident <$> DB.rows (Auth._db (Auth.after c a))
    = ((ident <$> DB.rows (Auth._db a)) ++ added)%list
    /\ (length added <= 1)%nat.
Proof.
  intros Hc ident. destruct (consistent_inv _ Hc) as (Hh & Hcm & He).
  destruct (healthy_inv _ Hh) as [_ Hs].
  assert (Hsame : exists added,
             ident <$> DB.rows (Auth._db a)
             = ((ident <$> DB.rows (Auth._db a)) ++ added)%list
             /\ (length added <= 1)%nat)
    by (exists []; rewrite app_nil_r; split; [reflexivity|simpl; lia]).
  assert (Halter : forall (f : User.t -> User.t) i n,
             (forall u, ident (f u) = ident u) ->
             exists added,
               ident <$> DB.rows (Auth._db
                          (Auth.stored (alter f i (DB.rows (Auth._db a))) n))
               = ((ident <$> DB.rows (Auth._db a)) ++ added)%list
               /\ (length added <= 1)%nat).
  { intros f i n Hf. exists []. cbn [Auth.stored Auth._db DB.rows].
    rewrite (fmap_alter_same ident f i _ Hf), app_nil_r.
    split; [reflexivity|simpl; lia]. }
  destruct c as [email password|email password|email|session_id|user_id|email
                |reset_token password]; unfold Auth.after.
  - rewrite (register_user_run _ _ _ Hh He). cbv zeta.
    destruct (DB.filter_by 0 [("email", email)] (DB.rows (Auth._db a)))
      as [|hit hits]; [|exact Hsame].
    destruct (negb (truthy email) || _) eqn:Et; [exact Hsame|].
    apply orb_false_iff in Et as [Et1 Et2]. apply negb_false_iff in Et1, Et2.
    rewrite (schema_ok_add _ _ _ Hs Et1 Et2).
    cbn [snd Auth.stored Auth._db DB.rows]. rewrite fmap_app.
    eexists. split; [reflexivity|simpl; lia].
  - rewrite (valid_login_run _ _ _ Hh).
    destruct (DB.filter_by 0 [("email", email)] (DB.rows (Auth._db a)))
      as [|[i u] [|hit hits]]; exact Hsame.
  - rewrite (create_session_run _ _ Hh).
    destruct (DB.filter_by 0 [("email", email)] (DB.rows (Auth._db a)))
      as [|[i u] [|hit hits]]; try exact Hsame.
    apply Halter. reflexivity.
  - rewrite (get_user_state _ _ Hh). exact Hsame.
  - rewrite (destroy_session_run _ _ Hh).
    destruct (DB.filter_by 0 [("id", user_id)] (DB.rows (Auth._db a)))
      as [|[i u] [|hit hits]]; try exact Hsame.
    apply Halter. reflexivity.
  - exact Hsame.
  - rewrite (update_password_run _ _ _ Hh).
    destruct (DB.filter_by 0 [("reset_token", reset_token)] (DB.rows (Auth._db a)))
      as [|[i u] [|hit hits]]; try exact Hsame.
    apply Halter. reflexivity.
Qed.

End ResetSequences.

Lemma login_after_reset_witness :
  let a := Auth.stored [Sample.alice_busy] 2 in
  let a1 := (@Auth.update_password Sample.bcrypt (VStr "reset-1") "pw2" a).2 in
  @Auth.valid_login Sample.bcrypt (VStr "a@x.com") "pw2" a1 = (Ok true, a1)
  /\ @Auth.valid_login Sample.bcrypt (VStr "a@x.com") "pw1" a1 = (Ok false, a1).
Proof.
  pose proof (@login_after_reset Sample.bcrypt (Auth.stored [Sample.alice_busy] 2)
                "reset-1" "a@x.com" "pw2" 0%nat Sample.alice_busy
                eq_refl eq_refl eq_refl eq_refl) as Hlogin.
  split; [exact (Hlogin "pw2")|exact (Hlogin "pw1")].
Defined.

Lemma reset_keeps_sessions_witness :
  let a := Auth.stored [Sample.alice_busy] 2 in
  let a1 := (@Auth.update_password Sample.bcrypt (VStr "reset-1") "pw2" a).2 in
  (Auth.get_user_from_session_id (VStr "sess-1") a1).1 = Ok (VStr "a@x.com").
Proof.
  exact (eq_trans
           (@reset_keeps_sessions Sample.bcrypt (Auth.stored [Sample.alice_busy] 2)
              "reset-1" "pw2" 0%nat Sample.alice_busy eq_refl eq_refl "sess-1")
           eq_refl).
Defined.

Lemma reset_without_token_witness :
  let a := Auth.stored [Sample.alice] 1 in
  let out := @app_routes.update_password Sample.bcrypt (Some "a@x.com") None
               (Some "intruder") a in
  out.1 = Ok (app_routes.Reply 200
                [("email", "a@x.com"); ("message", "Password updated")] [])
  /\ DB.committed (Auth._db out.2) !! 0%nat
     = Some (User.mk (VInt 1) (VStr "a@x.com") (VStr "sintruder") VNone VNone).
Proof.
  destruct (@reset_without_token Sample.bcrypt (Auth.stored [Sample.alice] 1)
              (Some "a@x.com") "intruder" 0%nat Sample.alice eq_refl eq_refl)
    as (H1 & _ & H3).
  split; [exact H1|exact H3].
Defined.

Lemma auth_keeps_identities_witness :
  let a := Auth.stored [Sample.alice_busy] 2 in
  exists added,
    (fun u => (User.id u, User.email u))
      <$> DB.rows (Auth._db (@Auth.after Sample.bcrypt Sample.uuid
                               (Auth.UpdatePassword (VStr "reset-1") "pw2") a))
    = ([(VInt 1, VStr "a@x.com")] ++ added)%list
    /\ (length added <= 1)%nat.
Proof.
  exact (@auth_keeps_identities Sample.bcrypt Sample.uuid
           (Auth.stored [Sample.alice_busy] 2)
           (Auth.UpdatePassword (VStr "reset-1") "pw2") eq_refl).
Defined.

(** ** The view functions of app.py *)

Section RouteFacts.
Context `{Auth.Bcrypt} `{Auth.Uuid}.

Implicit Types (a : Auth.t) (u : User.t).

(** On a healthy store [get_user_from_session_id] returns, and what it
    returns is an email of the store or [None]. *)
Lemma get_user_returns a (session_id : value) :
  DB.healthy (Auth._db a) = true ->
  exists r, Auth.get_user_from_session_id session_id a = (Ok r, a)
            /\ (r = VNone \/ exists i u,
                   DB.filter_by 0 [("session_id", session_id)] (DB.rows (Auth._db a))
                   = [(i, u)] /\ r = User.email u).
Proof.
  intros Hh. unfold Auth.get_user_from_session_id.
  destruct (bool_decide (session_id = VNone)).
  - exists VNone. split; [reflexivity|left; reflexivity].
  - unfold try_except, bind. rewrite (auth_find _ _ Hh) by reflexivity.
    destruct (DB.filter_by 0 [("session_id", session_id)] (DB.rows (Auth._db a)))
      as [|[i u] [|hit hits]].
    + exists VNone. split; [reflexivity|left; reflexivity].
    + exists (User.email u). split; [reflexivity|right; exists i, u; split; reflexivity].
    + exists VNone. split; [reflexivity|left; reflexivity].
Qed.

(** X16.  [DELETE /sessions] never logs anyone out.  On a healthy store,
    whatever cookie is sent, the store is left as it was and no redirect is
    answered: without a cookie, or with one that resolves to nothing, the
    answer is 403; with a cookie that resolves to a user the handler takes
    [.id] of what [get_user_from_session_id] returned, which is the user's
    email, and ends in [AttributeError]. *)
Theorem logout_never_destroys a (cookie : option string) :
  DB.healthy (Auth._db a) = true ->
  let out := app_routes.logout cookie a in
  out.2 = a
  /\ (out.1 = Ok (app_routes.Aborted 403) \/ out.1 = Raise AttributeError)
  /\ (forall s i u,
         cookie = Some s -> s <> EmptyString ->
         DB.filter_by 0 [("session_id", VStr s)] (DB.rows (Auth._db a)) = [(i, u)] ->
         truthy (User.email u) = true ->
         out.1 = Raise AttributeError).
Proof.
  intros Hh out. subst out. unfold app_routes.logout.
  destruct (negb (truthy (app.form_value cookie))) eqn:Et.
  - split; [reflexivity|]. split; [left; reflexivity|].
    intros s i u -> Hs _ _. simpl in Et.
    apply negb_true_iff, negb_false_iff, String.eqb_eq in Et. contradiction.
  - unfold bind.
    destruct (get_user_returns a (app.form_value cookie) Hh) as (r & Hr & Hwhat).
    rewrite Hr. destruct (truthy r) eqn:Er.
    + unfold app_routes.attribute, raise. cbn [fst snd].
      split; [reflexivity|]. split; [right; reflexivity|]. reflexivity.
    + unfold ret. cbn [fst snd].
      split; [reflexivity|]. split; [left; reflexivity|].
      intros s i u -> Hs Hone Hemail. exfalso.
      cbn [app.form_value] in Hr. rewrite (get_user_found _ _ _ _ Hh Hone) in Hr.
      injection Hr as <-. congruence.
Qed.

(** X17.  [GET /profile] never answers 200.  On a healthy store it leaves
    the store as it was and answers 403 when the cookie resolves to nothing;
    when the cookie resolves to a user it takes [.email] of the email
    string it was given and ends in [AttributeError]. *)
Theorem profile_never_answers a (cookie : option string) :
  DB.healthy (Auth._db a) = true ->
  let out := app_routes.profile cookie a in
  out.2 = a
  /\ (out.1 = Ok (app_routes.Aborted 403) \/ out.1 = Raise AttributeError)
  /\ (forall s i u,
         cookie = Some s ->
         DB.filter_by 0 [("session_id", VStr s)] (DB.rows (Auth._db a)) = [(i, u)] ->
         truthy (User.email u) = true ->
         out.1 = Raise AttributeError).
Proof.
  intros Hh out. subst out. unfold app_routes.profile, bind.
  destruct (get_user_returns a (app.form_value cookie) Hh) as (r & Hr & Hwhat).
  rewrite Hr. destruct (truthy r) eqn:Er.
  - unfold app_routes.attribute, raise. cbn [fst snd].
    split; [reflexivity|]. split; [right; reflexivity|]. reflexivity.
  - unfold ret. cbn [fst snd].
    split; [reflexivity|]. split; [left; reflexivity|].
    intros s i u -> Hone Hemail. exfalso.
    cbn [app.form_value] in Hr. rewrite (get_user_found _ _ _ _ Hh Hone) in Hr.
    injection Hr as <-. congruence.
Qed.

(** X18.  [POST /sessions].  On a healthy store, for an email that one
    record carries: when [checkpw] verifies the password against the stored
    hash, the answer is 200 with the cookie [session_id] set to the drawn
    uuid, which is stored on the record and, if no record held it before,
    resolves to the email right after; when [checkpw] rejects the password
    the answer is 401 and the store is as it was.  For an email that no
    record carries the answer is 401 as well. *)
Theorem login_route a (e password : string) :
  DB.healthy (Auth._db a) = true ->
  let rs := DB.rows (Auth._db a) in
  let T := Auth.uuid4 (Auth.entropy a) in
  let out := app_routes.login (Some e) (Some password) a in
  (forall i u hashed,
      DB.filter_by 0 [("email", VStr e)] rs = [(i, u)] ->
      User.hashed_password u = VStr hashed ->
      (Auth.checkpw password hashed = Some true ->
       out.1 = Ok (app_routes.Reply 200 [("email", e); ("message", "logged in")]
                     [("session_id", Some T)])
       /\ DB.rows (Auth._db out.2) !! i = Some (User.setattr u "session_id" (VStr T))
       /\ (DB.filter_by 0 [("session_id", VStr T)] rs = [] ->
           Auth.get_user_from_session_id (VStr T) out.2 = (Ok (VStr e), out.2)))
      /\ (Auth.checkpw password hashed = Some false ->
          out = (Ok (app_routes.Aborted 401), a)))
  /\ (DB.filter_by 0 [("email", VStr e)] rs = [] ->
      out = (Ok (app_routes.Aborted 401), a)).
Proof.
  intros Hh rs T out. subst rs T out.
  destruct (healthy_inv _ Hh) as [_ Hs].
  unfold app_routes.login, app_routes.valid_login, bind.
  cbn [app.form_value app.fstring].
  rewrite (valid_login_run _ _ _ Hh). split.
  - intros i u hashed Hone Hhash. rewrite Hone, Hhash.
    destruct (hit_lookup _ _ _ _ Hone) as [Hi Hm].
    apply criterion_single in Hm. injection Hm as Hemail.
    split.
    + intros ->. rewrite (create_session_found _ _ _ _ Hh Hone).
      unfold ret. cbn [fst snd].
      split; [reflexivity|]. split.
      * cbn [Auth.stored Auth._db DB.rows].
        rewrite list_lookup_alter_eq, Hi. reflexivity.
      * intros Hfresh.
        rewrite (get_user_found _ _ i (User.setattr u "session_id"
                                          (VStr (Auth.uuid4 (Auth.entropy a)))));
          [f_equal; f_equal; exact Hemail
          |apply stored_healthy, set_session_schema, Hs|].
        cbn [Auth.stored Auth._db DB.rows].
        apply (filter_by_alter_new 0 _ _ i u
                 (fun u => User.setattr u "session_id"
                             (VStr (Auth.uuid4 (Auth.entropy a)))) Hfresh Hi).
        rewrite session_criterion_set. apply bool_decide_eq_true_2. reflexivity.
    + intros ->. reflexivity.
  - intros ->. reflexivity.
Qed.

(** X19.  [POST /sessions] without a password field tells registered
    emails from unknown ones.  On a healthy store, with the password
    missing from the form: for an email that one record carries the handler
    ends in [AttributeError] ([None.encode]); for an email that no record
    carries it answers 401.  The store is as it was in both cases. *)
Theorem login_without_password a (e : string) :
  DB.healthy (Auth._db a) = true ->
  let out := app_routes.login (Some e) None a in
  (forall i u,
      DB.filter_by 0 [("email", VStr e)] (DB.rows (Auth._db a)) = [(i, u)] ->
      out = (Raise AttributeError, a))
  /\ (DB.filter_by 0 [("email", VStr e)] (DB.rows (Auth._db a)) = [] ->
      out = (Ok (app_routes.Aborted 401), a)).
Proof.
  intros Hh out. subst out.
  unfold app_routes.login, app_routes.valid_login, bind, try_except.
  cbn [app.form_value]. unfold bind.
  rewrite (auth_find _ _ Hh) by reflexivity.
  split; [intros i u ->|intros ->]; reflexivity.
Qed.

(** X20.  [POST /users] for an email that a record already carries
    answers 400 and leaves the store as it was, with or without a password
    in the form. *)
Theorem user_route_duplicate a (e : string) (form_password : option string) i u :
  DB.healthy (Auth._db a) = true ->
  DB.filter_by 0 [("email", VStr e)] (DB.rows (Auth._db a)) = [(i, u)] ->
  app_routes.user (Some e) form_password a
  = (Ok (app_routes.Reply 400 [("message", "email already registered")] []), a).
Proof.
  intros Hh Hone.
  unfold app_routes.user, app_routes.register_user, try_except_any, bind.
  cbn [app.form_value].
  destruct form_password as [p|];
    unfold Auth.register_user, try_except, bind;
    rewrite (auth_find _ _ Hh) by reflexivity; rewrite Hone; reflexivity.
Qed.

(** X21.  The answers of [POST /users] can misreport.  On a healthy store:
    with the email missing from the form and a password given, the answer is
    200 "user created" although [add_user] refused the empty email and the
    rows are as they were; with the password missing and an email that no
    record carries, the answer is 400 "email already registered" and again
    nothing is created. *)
Theorem user_route_misreports a (e password : string) :
  DB.healthy (Auth._db a) = true ->
  let none_created := app_routes.user None (Some password) a in
  let not_registered := app_routes.user (Some e) None a in
  (none_created.1 = Ok (app_routes.Reply 200
                          [("email", "None"); ("message", "user created")] [])
   /\ Auth._db none_created.2 = Auth._db a)
  /\ (DB.filter_by 0 [("email", VStr e)] (DB.rows (Auth._db a)) = [] ->
      not_registered
      = (Ok (app_routes.Reply 400 [("message", "email already registered")] []), a)).
Proof.
  intros Hh none_created not_registered. subst none_created not_registered.
  destruct (healthy_inv _ Hh) as [_ Hs].
  unfold app_routes.user, app_routes.register_user, try_except_any, bind.
  cbn [app.form_value app.fstring]. split.
  - unfold Auth.register_user, try_except, bind.
    rewrite (auth_find _ _ Hh) by reflexivity.
    rewrite filter_by_none.
    + split; reflexivity.
    + intros u Hu. cbn [forallb]. rewrite andb_true_r. unfold DB.criterion.
      apply bool_decide_eq_false_2. intros Heq. injection Heq as Heq.
      unfold DB.schema_ok in Hs. apply andb_true_iff in Hs as [Hrows _].
      rewrite forallb_forall in Hrows.
      specialize (Hrows u (proj1 (list_elem_of_In _ _) Hu)).
      unfold DB.row_ok in Hrows. rewrite Heq in Hrows.
      destruct (User.id u); discriminate.
  - intros Hnil. unfold try_except, bind.
    rewrite (auth_find _ _ Hh) by reflexivity. rewrite Hnil. reflexivity.
Qed.

End RouteFacts.

Lemma logout_never_destroys_witness :
  let a := Auth.stored [Sample.alice_busy] 2 in
  app_routes.logout (Some "sess-1") a = (Raise AttributeError, a)
  /\ (Auth.get_user_from_session_id (VStr "sess-1") a).1 = Ok (VStr "a@x.com").
Proof.
  destruct (logout_never_destroys (Auth.stored [Sample.alice_busy] 2)
              (Some "sess-1") eq_refl) as (H1 & _ & H3).
  split; [|reflexivity].
  apply injective_projections; [|exact H1].
  apply (H3 "sess-1" 0%nat Sample.alice_busy eq_refl);
    [discriminate|reflexivity|reflexivity].
Defined.

Lemma profile_never_answers_witness :
  let a := Auth.stored [Sample.alice_busy] 2 in
  app_routes.profile (Some "sess-1") a = (Raise AttributeError, a)
  /\ app_routes.profile None a = (Ok (app_routes.Aborted 403), a).
Proof.
  destruct (profile_never_answers (Auth.stored [Sample.alice_busy] 2)
              (Some "sess-1") eq_refl) as (H1 & _ & H3).
  split; [|reflexivity].
  apply injective_projections; [|exact H1].
  exact (H3 "sess-1" 0%nat Sample.alice_busy eq_refl eq_refl eq_refl).
Defined.

Lemma login_route_witness :
  let a := Auth.stored [Sample.alice] 1 in
  let out := @app_routes.login Sample.bcrypt Sample.uuid
               (Some "a@x.com") (Some "pw1") a in
  out.1 = Ok (app_routes.Reply 200 [("email", "a@x.com"); ("message", "logged in")]
                [("session_id", Some "uuid-1")])
  /\ Auth.get_user_from_session_id (VStr "uuid-1") out.2 = (Ok (VStr "a@x.com"), out.2)
  /\ @app_routes.login Sample.bcrypt Sample.uuid (Some "a@x.com") (Some "wrong") a
     = (Ok (app_routes.Aborted 401), a).
Proof.
  destruct (@login_route Sample.bcrypt Sample.uuid (Auth.stored [Sample.alice] 1)
              "a@x.com" "pw1" eq_refl) as (Hknown & _).
  destruct (Hknown 0%nat Sample.alice "spw1" eq_refl eq_refl) as (Hgood & _).
  destruct (Hgood eq_refl) as (H1 & _ & H3).
  destruct (@login_route Sample.bcrypt Sample.uuid (Auth.stored [Sample.alice] 1)
              "a@x.com" "wrong" eq_refl) as (Hknown' & _).
  destruct (Hknown' 0%nat Sample.alice "spw1" eq_refl eq_refl) as (_ & Hbad).
  split; [exact H1|]. split; [exact (H3 eq_refl)|exact (Hbad eq_refl)].
Defined.

Lemma login_without_password_witness :
  let a := Auth.stored [Sample.alice] 1 in
  @app_routes.login Sample.bcrypt Sample.uuid (Some "a@x.com") None a
  = (Raise AttributeError, a)
  /\ @app_routes.login Sample.bcrypt Sample.uuid (Some "b@x.com") None a
     = (Ok (app_routes.Aborted 401), a).
Proof.
  destruct (@login_without_password Sample.bcrypt Sample.uuid
              (Auth.stored [Sample.alice] 1) "a@x.com" eq_refl) as (Hknown & _).
  destruct (@login_without_password Sample.bcrypt Sample.uuid
              (Auth.stored [Sample.alice] 1) "b@x.com" eq_refl) as (_ & Hunknown).
  split; [exact (Hknown 0%nat Sample.alice eq_refl)|exact (Hunknown eq_refl)].
Defined.

Lemma user_route_duplicate_witness :
  let a := Auth.stored [Sample.alice] 1 in
  @app_routes.user Sample.bcrypt (Some "a@x.com") (Some "pw2") a
  = (Ok (app_routes.Reply 400 [("message", "email already registered")] []), a).
Proof.
  exact (@user_route_duplicate Sample.bcrypt (Auth.stored [Sample.alice] 1)
           "a@x.com" (Some "pw2") 0%nat Sample.alice eq_refl eq_refl).
Defined.

Lemma user_route_misreports_witness :
  let a := Auth.stored [Sample.alice] 1 in
  (@app_routes.user Sample.bcrypt None (Some "pw") a).1
  = Ok (app_routes.Reply 200 [("email", "None"); ("message", "user created")] [])
  /\ DB.rows (Auth._db (@app_routes.user Sample.bcrypt None (Some "pw") a).2)
     = [Sample.alice]
  /\ @app_routes.user Sample.bcrypt (Some "b@x.com") None a
     = (Ok (app_routes.Reply 400 [("message", "email already registered")] []), a).
Proof.
  destruct (@user_route_misreports Sample.bcrypt (Auth.stored [Sample.alice] 1)
              "b@x.com" "pw" eq_refl) as ((H1 & H2) & H3).
  split; [exact H1|]. split; [rewrite H2; reflexivity|exact (H3 eq_refl)].
Defined.

(** ** [require_auth] *)

Section RequireAuth.

Implicit Types (p : string) (excluded : list string).

Lemma last_append_slash p : PyStr.last (p ++ "/") = Some "/"%char.
Proof.
  induction p as [|c p IH]; [reflexivity|].
  simpl. rewrite IH. destruct (p ++ "/")%string eqn:E; [|reflexivity].
  destruct p; discriminate.
Qed.

Lemma nonempty_length excluded : excluded <> [] -> Nat.eqb (length excluded) 0 = false.
Proof. destruct excluded; [congruence|reflexivity]. Qed.

(** X22.  [require_auth] answers [True] when the path or the list is
    [None] or the list is empty.  With a non-empty list the empty path
    raises [IndexError], and any other path is exempt exactly when it is in
    the list as it stands or, lacking a final slash, with a slash added;
    nothing else in the list exempts it. *)
Theorem require_auth_cases (path : option string) (excluded_paths : option (list string)) :
  (path = None \/ excluded_paths = None \/ excluded_paths = Some [] ->
   ApiAuth.require_auth path excluded_paths = inr true)
  /\ (forall excluded,
         path = Some EmptyString -> excluded_paths = Some excluded -> excluded <> [] ->
         ApiAuth.require_auth path excluded_paths = inl PyStr.IndexError)
  /\ (forall p c excluded,
         path = Some p -> PyStr.last p = Some c ->
         excluded_paths = Some excluded -> excluded <> [] ->
         exists b, ApiAuth.require_auth path excluded_paths = inr b
                   /\ (b = false <->
                       p ∈ excluded \/ (c <> "/"%char /\ (p ++ "/")%string ∈ excluded))).
Proof.
  split; [|split].
  - intros [->|[->| ->]]; [reflexivity| |]; destruct path; reflexivity.
  - intros excluded -> -> Hne. unfold ApiAuth.require_auth.
    rewrite (nonempty_length _ Hne). reflexivity.
  - intros p c excluded -> Hlast -> Hne. unfold ApiAuth.require_auth.
    rewrite (nonempty_length _ Hne), Hlast.
    destruct (Ascii.eqb_spec c "/"%char) as [->|Hc]; cbn [negb].
    + destruct (bool_decide (p ∈ excluded)) eqn:Ep; cbn [orb].
      * exists false. split; [reflexivity|]. split; [|reflexivity].
        intros _. left. exact (bool_decide_eq_true_1 _ Ep).
      * exists true. split; [reflexivity|]. split; [discriminate|].
        apply bool_decide_eq_false_1 in Ep. intros [Hin|[Hc _]]; congruence.
    + destruct (bool_decide ((p ++ "/")%string ∈ excluded)) eqn:Es; cbn [orb].
      * exists false. split; [reflexivity|]. split; [|reflexivity].
        intros _. right. split; [exact Hc|]. exact (bool_decide_eq_true_1 _ Es).
      * apply bool_decide_eq_false_1 in Es.
        destruct (bool_decide (p ∈ excluded)) eqn:Ep.
        -- exists false. split; [reflexivity|]. split; [|reflexivity].
           intros _. left. exact (bool_decide_eq_true_1 _ Ep).
        -- exists true. split; [reflexivity|]. split; [discriminate|].
           apply bool_decide_eq_false_1 in Ep. intros [Hin|[_ Hin]]; congruence.
Qed.

Lemma require_auth_cases_witness :
  ApiAuth.require_auth None (Some ["/api/v1/status/"]) = inr true
  /\ ApiAuth.require_auth (Some EmptyString) (Some ["/api/v1/status/"])
     = inl PyStr.IndexError
  /\ exists b, ApiAuth.require_auth (Some "/api/v1/status") (Some ["/api/v1/status/"])
               = inr b
               /\ (b = false <->
                   "/api/v1/status" ∈ ["/api/v1/status/"]
                   \/ ("s"%char <> "/"%char
                       /\ ("/api/v1/status" ++ "/")%string ∈ ["/api/v1/status/"])).
Proof.
  split; [|split].
  - apply (proj1 (require_auth_cases None (Some ["/api/v1/status/"]))).
    left. reflexivity.
  - apply (proj1 (proj2 (require_auth_cases (Some EmptyString)
                           (Some ["/api/v1/status/"]))) ["/api/v1/status/"]);
      [reflexivity|reflexivity|discriminate].
  - apply (proj2 (proj2 (require_auth_cases (Some "/api/v1/status")
                           (Some ["/api/v1/status/"])))
             "/api/v1/status" "s"%char ["/api/v1/status/"]);
      [reflexivity|reflexivity|reflexivity|discriminate].
Defined.

(** X23.  The final slash is forgiven one way only.  For a non-empty path
    [p] without a final slash: listing [p/] exempts both [p] and [p/];
    listing [p] alone exempts [p] but not [p/]. *)
Theorem require_auth_slash p c excluded :
  PyStr.last p = Some c -> c <> "/"%char ->
  ((p ++ "/")%string ∈ excluded ->
   ApiAuth.require_auth (Some p) (Some excluded) = inr false
   /\ ApiAuth.require_auth (Some (p ++ "/")%string) (Some excluded) = inr false)
  /\ (p ∈ excluded -> (p ++ "/")%string ∉ excluded ->
      ApiAuth.require_auth (Some p) (Some excluded) = inr false
      /\ ApiAuth.require_auth (Some (p ++ "/")%string) (Some excluded) = inr true).
Proof.
  intros Hlast Hc.
  assert (Hneg : negb (Ascii.eqb c "/"%char) = true)
    by (apply negb_true_iff, Ascii.eqb_neq; exact Hc).
  split.
  - intros Hin.
    assert (Hne : excluded <> []) by (intros ->; inversion Hin).
    unfold ApiAuth.require_auth.
    rewrite (nonempty_length _ Hne), Hlast, last_append_slash, Hneg.
    cbn [negb]. rewrite Ascii.eqb_refl. cbn [negb].
    rewrite (bool_decide_eq_true_2 _ Hin). split; reflexivity.
  - intros Hin Hnot.
    assert (Hne : excluded <> []) by (intros ->; inversion Hin).
    unfold ApiAuth.require_auth.
    rewrite (nonempty_length _ Hne), Hlast, last_append_slash, Hneg.
    cbn [negb]. rewrite Ascii.eqb_refl. cbn [negb].
    rewrite (bool_decide_eq_true_2 _ Hin), (bool_decide_eq_false_2 _ Hnot).
    split; reflexivity.
Qed.

Lemma require_auth_slash_witness :
  ApiAuth.require_auth (Some "/api/v1/status") (Some ["/api/v1/status"]) = inr false
  /\ ApiAuth.require_auth (Some "/api/v1/status/") (Some ["/api/v1/status"]) = inr true.
Proof.
  apply (proj2 (require_auth_slash "/api/v1/status" "s"%char ["/api/v1/status"]
                  eq_refl ltac:(discriminate))).
  - apply list_elem_of_singleton. reflexivity.
  - intros Hin. apply list_elem_of_singleton in Hin. discriminate.
Defined.

End RequireAuth.

(** ** [SessionAuth], further *)

Section SessionAuthMore.
Context `{Auth.Uuid}.

(** X24.  The class dictionary holds one entry per user id.  For a
    non-empty user id, two calls of [create_session] in a row leave the
    dictionary with the second session id under that user id, every other
    entry as it was, and no entry more than after the first call; a lookup
    with the user id as key returns the second session id. *)
Theorem session_map_one_entry_per_user (c : SessionAuth.t) (uid : string) :
  uid <> EmptyString ->
  let T2 := Auth.uuid4 (S (SessionAuth.entropy c)) in
  let c1 := (SessionAuth.create_session (VStr uid) c).2 in
  let c2 := (SessionAuth.create_session (VStr uid) c1).2 in
  SessionAuth.user_id_by_session_id c2
  = <[uid := T2]> (SessionAuth.user_id_by_session_id c)
  /\ dom (SessionAuth.user_id_by_session_id c2)
     = dom (SessionAuth.user_id_by_session_id c1)
  /\ (forall k, k <> uid ->
        SessionAuth.user_id_by_session_id c2 !! k
        = SessionAuth.user_id_by_session_id c !! k)
  /\ SessionAuth.user_id_for_session_id (VStr uid) c2 = (Ok (Some T2), c2).
Proof.
  intros Hne T2 c1 c2. subst T2 c1 c2.
  assert (Et : negb (truthy (VStr uid)) = false).
  { simpl. apply negb_false_iff, negb_true_iff, String.eqb_neq. exact Hne. }
  unfold SessionAuth.create_session. rewrite Et.
  cbn [fst snd SessionAuth.user_id_by_session_id SessionAuth.entropy].
  split; [apply insert_insert_eq|]. split; [|split].
  - rewrite insert_insert_eq, !dom_insert_L. reflexivity.
  - intros k Hk. rewrite !lookup_insert_ne by congruence. reflexivity.
  - unfold SessionAuth.user_id_for_session_id. rewrite Et.
    unfold bind, get, ret. cbn [SessionAuth.user_id_by_session_id].
    rewrite lookup_insert_eq. reflexivity.
Qed.

(** X25.  What is not a non-empty string is turned away.  [create_session]
    with [None], an [int] or the empty string returns [None] and leaves the
    dictionary and the random source alone; [user_id_for_session_id] returns
    [None] on such an argument, and changes nothing on any argument. *)
Theorem session_auth_turns_away (c : SessionAuth.t) (v : value) :
  (forall s, v = VStr s -> s = EmptyString) ->
  SessionAuth.create_session v c = (Ok None, c)
  /\ SessionAuth.user_id_for_session_id v c = (Ok None, c)
  /\ forall v', (SessionAuth.user_id_for_session_id v' c).2 = c.
Proof.
  intros Hv. split; [|split].
  - destruct v as [|z|s]; try reflexivity.
    rewrite (Hv s eq_refl). reflexivity.
  - destruct v as [|z|s]; try reflexivity.
    rewrite (Hv s eq_refl). reflexivity.
  - intros [|z|s]; try reflexivity.
    unfold SessionAuth.user_id_for_session_id.
    destruct (negb (truthy (VStr s))); reflexivity.
Qed.

(** X26.  [current_user] does not find the user who has just been given a
    session.  After [create_session] for a non-empty user id has returned a
    token that is non-empty, differs from the user id and was no key of the
    dictionary, a request carrying that token in the session cookie makes
    [current_user] call [User.get(None)]. *)
Theorem current_user_after_login {UserModel : Type}
    (User_get : option string -> option UserModel)
    (c : SessionAuth.t) (uid name : string) (req : ApiAuth.request) :
  uid <> EmptyString ->
  let T := Auth.uuid4 (SessionAuth.entropy c) in
  T <> EmptyString -> T <> uid ->
  SessionAuth.user_id_by_session_id c !! T = None ->
  ApiAuth.cookies req !! name = Some T ->
  let c1 := (SessionAuth.create_session (VStr uid) c).2 in
  SessionAuthUser.current_user User_get (Some name) (Some req) c1
  = (Ok (User_get None), c1).
Proof.
  intros Hne T HT Hdiff Hfree Hcookie c1. subst c1.
  destruct (session_map_is_keyed_by_user c uid Hne) as (_ & _ & Hmiss).
  specialize (Hmiss HT Hdiff Hfree).
  unfold SessionAuthUser.current_user, ApiAuth.session_cookie.
  rewrite Hcookie.
  assert (Et : truthy (VStr T) = true).
  { simpl. apply negb_true_iff, String.eqb_neq. exact HT. }
  rewrite Et. unfold bind. fold T in Hmiss. rewrite Hmiss. reflexivity.
Qed.

End SessionAuthMore.

Lemma session_map_one_entry_per_user_witness :
  let c1 := (@SessionAuth.create_session Sample.uuid (VStr "u1") SessionAuth.init).2 in
  let c2 := (@SessionAuth.create_session Sample.uuid (VStr "u1") c1).2 in
  SessionAuth.user_id_by_session_id c2 = {[ "u1" := "uuid-1" ]}.
Proof.
  destruct (@session_map_one_entry_per_user
              Sample.uuid SessionAuth.init "u1" ltac:(discriminate))
    as (Hmap & _).
  exact Hmap.
Defined.

Lemma session_auth_turns_away_witness :
  @SessionAuth.create_session Sample.uuid VNone SessionAuth.init
  = (Ok None, SessionAuth.init)
  /\ @SessionAuth.create_session Sample.uuid (VInt 7) SessionAuth.init
     = (Ok None, SessionAuth.init).
Proof.
  split.
  - apply (@session_auth_turns_away Sample.uuid SessionAuth.init VNone).
    discriminate.
  - apply (@session_auth_turns_away Sample.uuid SessionAuth.init (VInt 7)).
    discriminate.
Defined.

Lemma current_user_after_login_witness :
  let req := ApiAuth.mk_request ∅ {[ "_my_session_id" := "uuid-0" ]} in
  let c1 := (@SessionAuth.create_session Sample.uuid (VStr "u1") SessionAuth.init).2 in
  let User_get (user_id : option string) :=
    match user_id with Some k => Some k | None => None end in
  @SessionAuthUser.current_user string User_get (Some "_my_session_id") (Some req) c1
  = (Ok None, c1).
Proof.
  exact (@current_user_after_login Sample.uuid string
           (fun user_id => match user_id with Some k => Some k | None => None end)
           SessionAuth.init "u1" "_my_session_id"
           (ApiAuth.mk_request ∅ {[ "_my_session_id" := "uuid-0" ]})
           ltac:(discriminate) ltac:(vm_compute; discriminate)
           ltac:(vm_compute; discriminate) eq_refl eq_refl).
Defined.

(** ** [BasicAuth] *)

Section BasicAuthFacts.

Lemma prefix_basic (header : string) :
  String.prefix "Basic" header = true -> exists rest, header = ("Basic" ++ rest)%string.
Proof.
  destruct header as [|a1 [|a2 [|a3 [|a4 [|a5 rest]]]]]; cbn [String.prefix];
    repeat match goal with
           | |- context [ascii_dec ?x ?y] => destruct (ascii_dec x y); [subst|]
           end; try discriminate.
  intros _. exists rest. reflexivity.
Qed.

Lemma prefix_basic_append (rest : string) :
  String.prefix "Basic" ("Basic" ++ rest)%string = true.
Proof.
  simpl.
  repeat match goal with
         | |- context [ascii_dec ?x ?y] => destruct (ascii_dec x y); [|congruence]
         end.
  destruct rest; reflexivity.
Qed.

(** X27.  [extract_base64_authorization_header] returns a string exactly
    for the headers that begin with the five letters of Basic: the header
    Basic itself gives the empty string, and otherwise the sixth character
    is dropped, whatever it is, and the rest returned.  A header that is not
    a string, or does not begin so, gives [None]. *)
Theorem extract_base64_header_iff (header r : string) :
  (BasicAuth.extract_base64_authorization_header (VStr header) = Some r <->
   (header = "Basic" /\ r = EmptyString)
   \/ exists c, header = ("Basic" ++ String c r)%string)
  /\ BasicAuth.extract_base64_authorization_header VNone = None
  /\ forall z, BasicAuth.extract_base64_authorization_header (VInt z) = None.
Proof.
  split; [|split; reflexivity].
  unfold BasicAuth.extract_base64_authorization_header. split.
  - destruct (String.prefix "Basic" header) eqn:E; [|discriminate].
    apply prefix_basic in E as [rest ->]. cbn [negb].
    intros Hr. injection Hr as <-.
    destruct rest as [|c rest]; [left; split; reflexivity|].
    right. exists c. reflexivity.
  - intros [[-> ->]|[c ->]]; [reflexivity|].
    rewrite prefix_basic_append. reflexivity.
Qed.

Lemma contains_split (c : Ascii.ascii) (e p : string) :
  PyStr.contains c e = false ->
  PyStr.contains c (e ++ String c p) = true
  /\ PyStr.split_once c (e ++ String c p) = (e, p).
Proof.
  induction e as [|c' e IH]; intros Hno; simpl.
  - rewrite Ascii.eqb_refl. split; reflexivity.
  - simpl in Hno. apply orb_false_iff in Hno as [Hc He].
    destruct (IH He) as [IH1 IH2]. rewrite Hc, IH1, IH2. split; reflexivity.
Qed.

Lemma split_once_inv (c : Ascii.ascii) (d : string) :
  PyStr.contains c d = true ->
  d = ((PyStr.split_once c d).1 ++ String c (PyStr.split_once c d).2)%string
  /\ PyStr.contains c (PyStr.split_once c d).1 = false.
Proof.
  induction d as [|c' d IH]; intros Hin; [discriminate|].
  simpl in *. destruct (Ascii.eqb_spec c' c) as [->|Hne].
  - split; reflexivity.
  - simpl in Hin. destruct (IH Hin) as [IH1 IH2].
    destruct (PyStr.split_once c d) as [before after]. simpl in *.
    split; [change (String c' d = String c' (before ++ String c after)%string);
            f_equal; exact IH1|].
    rewrite IH2. apply orb_false_iff. split; [|reflexivity].
    apply Ascii.eqb_neq. exact Hne.
Qed.

(** X28.  [extract_user_credentials] undoes [email + ":" + password] for
    every email without a colon, whatever the password holds, colons
    included; what it returns as a pair always puts the text back together
    around the first colon; and a text without a colon gives
    [(None, None)]. *)
Theorem extract_user_credentials_round_trip :
  (forall email password : string,
      PyStr.contains ":"%char email = false ->
      BasicAuth.extract_user_credentials (VStr (email ++ ":" ++ password))
      = (Some email, Some password))
  /\ (forall decoded email password : string,
         BasicAuth.extract_user_credentials (VStr decoded)
         = (Some email, Some password) ->
         decoded = (email ++ ":" ++ password)%string
         /\ PyStr.contains ":"%char email = false)
  /\ (forall decoded : string,
         PyStr.contains ":"%char decoded = false ->
         BasicAuth.extract_user_credentials (VStr decoded) = (None, None)).
Proof.
  split; [|split].
  - intros email password Hno.
    destruct (contains_split ":"%char email password Hno) as [Hc Hs].
    unfold BasicAuth.extract_user_credentials.
    change (email ++ ":" ++ password)%string
      with (email ++ String ":"%char password)%string.
    rewrite Hc, Hs.
    destruct email; reflexivity.
  - intros decoded email password.
    unfold BasicAuth.extract_user_credentials.
    destruct (truthy (VStr decoded) && PyStr.contains ":"%char decoded) eqn:E;
      [|discriminate].
    apply andb_true_iff in E as [_ Hc].
    intros Heq. injection Heq as <- <-.
    exact (split_once_inv _ _ Hc).
  - intros decoded Hno. unfold BasicAuth.extract_user_credentials.
    rewrite Hno, andb_false_r. reflexivity.
Qed.

Lemma extract_user_credentials_round_trip_witness :
  BasicAuth.extract_user_credentials (VStr "bob@hbtn.io:pass:word")
  = (Some "bob@hbtn.io", Some "pass:word")
  /\ BasicAuth.extract_user_credentials (VStr "bob") = (None, None).
Proof.
  destruct extract_user_credentials_round_trip as (Hjoin & _ & Hnone).
  split.
  - exact (Hjoin "bob@hbtn.io" "pass:word" eq_refl).
  - exact (Hnone "bob" eq_refl).
Defined.

End BasicAuthFacts.

(** ** [filter_datum] *)

Section FilterDatum.

Import filtered_logger.

Implicit Types (f redaction message : string) (c : Ascii.ascii).

Lemma strip_prefix_contains p s r c :
  strip_prefix p s = Some r -> PyStr.contains c s = false -> PyStr.contains c r = false.
Proof.
  revert s. induction p as [|a p IH]; intros s Hs Hno.
  - destruct s; injection Hs as <-; exact Hno.
  - destruct s as [|b s]; [discriminate|]. simpl in Hs.
    destruct (Ascii.eqb a b); [|discriminate].
    simpl in Hno. apply orb_false_iff in Hno as [_ Hno]. exact (IH _ Hs Hno).
Qed.

Lemma value_len_none c s : PyStr.contains c s = false -> value_len c s = None.
Proof.
  induction s as [|x s IH]; intros Hno; [reflexivity|].
  simpl in *. apply orb_false_iff in Hno as [Hx Hs]. rewrite Hx, (IH Hs).
  destruct (Ascii.eqb x newline); reflexivity.
Qed.

Lemma sub_from_no_separator f redaction c message :
  PyStr.contains c message = false -> sub_from f redaction c 0 message = message.
Proof.
  induction message as [|x rest IH]; intros Hno; [reflexivity|].
  assert (Hm : match_len f c (String x rest) = None).
  { unfold match_len. destruct (strip_prefix (f ++ "=") (String x rest)) as [r|] eqn:E;
      [|reflexivity].
    rewrite (value_len_none c r (strip_prefix_contains _ _ _ _ E Hno)). reflexivity. }
  cbn [sub_from]. rewrite Hm.
  simpl in Hno. apply orb_false_iff in Hno as [_ Hno]. rewrite (IH Hno). reflexivity.
Qed.

(** X29.  Without a separator nothing is redacted.  For field names,
    separator and redaction in the range of the model, a message in which
    the separator does not occur comes back from [filter_datum] unchanged,
    whatever fields it names: a value that no separator follows, like that
    of the last field of a line that does not end in one, is left in
    clear. *)
Theorem filter_datum_needs_separator (fields : list string) redaction message c :
  forallb literal_name fields = true ->
  plain_separator c = true ->
  plain_text redaction = true ->
  PyStr.contains c message = false ->
  filter_datum fields redaction message c = message.
Proof.
  intros _ _ _ Hno. unfold filter_datum.
  induction fields as [|f fields IH]; [reflexivity|].
  simpl. rewrite (sub_from_no_separator _ _ _ _ Hno). exact IH.
Qed.

Lemma filter_datum_needs_separator_witness :
  filter_datum PII_FIELDS "***" "password=bobby2019" ";"%char = "password=bobby2019".
Proof.
  exact (filter_datum_needs_separator PII_FIELDS "***" "password=bobby2019" ";"%char
           eq_refl eq_refl eq_refl eq_refl).
Defined.

Lemma append_cons (a : Ascii.ascii) (s1 s2 : string) :
  (String a s1 ++ s2)%string = String a (s1 ++ s2)%string.
Proof. reflexivity. Qed.

Lemma strip_prefix_append p s : strip_prefix p (p ++ s) = Some s.
Proof.
  induction p as [|a p IH]; [destruct s; reflexivity|].
  rewrite append_cons. simpl. rewrite Ascii.eqb_refl. exact IH.
Qed.

Lemma value_len_value c v rest :
  PyStr.contains c v = false -> PyStr.contains newline v = false ->
  value_len c (v ++ String c rest) = Some (S (String.length v)).
Proof.
  induction v as [|x v IH]; intros Hc Hn.
  - change (EmptyString ++ String c rest)%string with (String c rest).
    simpl. rewrite Ascii.eqb_refl. reflexivity.
  - simpl in Hc, Hn. apply orb_false_iff in Hc as [Hxc Hc].
    apply orb_false_iff in Hn as [Hxn Hn].
    rewrite append_cons. simpl.
    rewrite Hxc, Hxn, (IH Hc Hn). reflexivity.
Qed.

Lemma sub_from_skip f redaction c s rest :
  sub_from f redaction c (String.length s) (s ++ rest) = sub_from f redaction c 0 rest.
Proof.
  induction s as [|x s IH]; [reflexivity|]. rewrite append_cons. simpl. exact IH.
Qed.

Lemma append_assoc_string (s1 s2 s3 : string) :
  ((s1 ++ s2) ++ s3 = s1 ++ (s2 ++ s3))%string.
Proof.
  induction s1 as [|a s1 IH]; [reflexivity|].
  rewrite !append_cons, IH. reflexivity.
Qed.

Lemma length_append_string (s1 s2 : string) :
  String.length (s1 ++ s2) = (String.length s1 + String.length s2)%nat.
Proof.
  induction s1 as [|a s1 IH]; [reflexivity|].
  rewrite append_cons. simpl. rewrite IH. reflexivity.
Qed.

(** X30.  A field followed by the separator is redacted.  For a field name,
    separator and redaction in the range of the model, and a value holding
    neither the separator nor a newline: in a message that starts with
    [f=value] and the separator, [filter_datum] for the one field [f] puts
    the redaction in place of the value and goes on with the rest of the
    message. *)
Theorem filter_datum_redacts_field f redaction c (value rest : string) :
  literal_name f = true ->
  plain_separator c = true ->
  plain_text redaction = true ->
  PyStr.contains c value = false ->
  PyStr.contains newline value = false ->
  filter_datum [f] redaction (f ++ "=" ++ value ++ String c rest) c
  = (f ++ "=" ++ redaction ++ String c (filter_datum [f] redaction rest c))%string.
Proof.
  intros _ _ _ Hc Hn. unfold filter_datum. simpl fold_left.
  set (matched := (f ++ "=" ++ value ++ String c EmptyString)%string).
  assert (Hmsg : (f ++ "=" ++ value ++ String c rest)%string = (matched ++ rest)%string).
  { unfold matched. rewrite !append_assoc_string. reflexivity. }
  assert (Hlen : match_len f c (matched ++ rest)
                 = Some (String.length f + 1 + S (String.length value))%nat).
  { unfold match_len, matched.
    replace ((f ++ "=" ++ value ++ String c EmptyString) ++ rest)%string
      with ((f ++ "=") ++ (value ++ String c rest))%string
      by (rewrite !append_assoc_string; reflexivity).
    rewrite strip_prefix_append, (value_len_value _ _ _ Hc Hn). reflexivity. }
  assert (Hsize : String.length matched
                  = S (Nat.pred (String.length f + 1 + S (String.length value)))).
  { unfold matched. rewrite !length_append_string. simpl. lia. }
  rewrite Hmsg.
  destruct matched as [|x matched'] eqn:Em; [discriminate|].
  change (String x matched' ++ rest)%string with (String x (matched' ++ rest)%string) in *.
  cbn [sub_from]. rewrite Hlen.
  simpl in Hsize. injection Hsize as Hsize. rewrite <- Hsize, sub_from_skip.
  rewrite !append_assoc_string. reflexivity.
Qed.

Lemma filter_datum_redacts_field_witness :
  filter_datum ["email"] "***" "email=bob@dylan.com;ssn=000-123-0000;" ";"%char
  = "email=***;ssn=000-123-0000;".
Proof.
  exact (filter_datum_redacts_field "email" "***" ";"%char "bob@dylan.com"
           "ssn=000-123-0000;" eq_refl eq_refl eq_refl eq_refl eq_refl).
Defined.

End FilterDatum.

Lemma extract_base64_header_iff_witness :
  BasicAuth.extract_base64_authorization_header (VStr "Basic SG9sYmVydG9u")
  = Some "SG9sYmVydG9u"
  /\ BasicAuth.extract_base64_authorization_header (VStr "BasicXSG9sYmVydG9u")
     = Some "SG9sYmVydG9u".
Proof.
  split.
  - apply (proj1 (extract_base64_header_iff "Basic SG9sYmVydG9u" "SG9sYmVydG9u")).
    right. exists " "%char. reflexivity.
  - apply (proj1 (extract_base64_header_iff "BasicXSG9sYmVydG9u" "SG9sYmVydG9u")).
    right. exists "X"%char. reflexivity.
Defined.
